(** * CEP weather report: Service A (forwarding) and Service B (aggregation)

    A shallow embedding of [servico_a/main.go] and [servico_b/main.go]:
    the CEP validator, the two HTTP handlers and the two resolvers, over an
    explicit model of the collaborators they call (the request body, the
    process environment, the HTTP client, the JSON decoder and the tracer). *)

From Stdlib Require Import ZArith String Ascii List Bool Lia.
From Stdlib Require Import Floats DecimalString.
From stdpp Require Import base option gmap strings.
Import ListNotations.

Local Open Scope Z_scope.
Local Open Scope string_scope.

Set Warnings "-inexact-float".

(** ** Go strings

    A Go [string] is a sequence of bytes; [String.string] over [ascii] is
    the same thing.  [len(s)] is [String.length s]. *)

(** [s[n:]]: the suffix from byte [n]; out of range is a run-time panic,
    here [None]. *)
Fixpoint slice_from (n : nat) (s : string) : option string :=
  match n, s with
  | O, _ => Some s
  | S n', String _ t => slice_from n' t
  | S _, EmptyString => None
  end.

(** ** Package [regexp], as far as [`^\d{8}$`] needs it

    The syntax tree carries the constructs of the pattern; the matcher is a
    backtracking matcher with a continuation.  A position is the number of
    bytes already behind the cursor together with the text still ahead. *)
Inductive regex : Type :=
| BeginText                          (* ^  without the m flag: start of text *)
| EndText                            (* $  without the m flag: end of text only *)
| PerlDigit                          (* \d : the ASCII class [0-9] *)
| Concat (r1 r2 : regex)
| Repeat (r : regex) (n : nat).      (* r{n} *)

(** [\d] is ASCII-only in Go.  A multi-byte UTF-8 rune (or an invalid byte)
    starts with a byte of 128 or more, which is outside the class, so the
    test on one byte decides the match of the rune. *)
Definition is_digit (c : ascii) : bool :=
  (48 <=? nat_of_ascii c)%nat && (nat_of_ascii c <=? 57)%nat.

Fixpoint match_at (r : regex) (pos : nat) (s : string)
    (k : nat -> string -> bool) {struct r} : bool :=
  match r with
  | BeginText => Nat.eqb pos 0 && k pos s
  | EndText => match s with EmptyString => k pos s | String _ _ => false end
  | PerlDigit =>
      match s with
      | String c t => is_digit c && k (S pos) t
      | EmptyString => false
      end
  | Concat r1 r2 => match_at r1 pos s (fun p t => match_at r2 p t k)
  | Repeat r1 n =>
      (fix times (n : nat) (pos : nat) (s : string) : bool :=
         match n with
         | O => k pos s
         | S n' => match_at r1 pos s (times n')
         end) n pos s
  end.

(** A match may start at any position of the text: [regexp.MatchString]
    reports whether the string contains a match. *)
Fixpoint search_from (r : regex) (pos : nat) (s : string) : bool :=
  match_at r pos s (fun _ _ => true)
  || match s with
     | String _ t => search_from r (S pos) t
     | EmptyString => false
     end.

Definition MatchString (r : regex) (s : string) : bool := search_from r 0 s.

(** The pattern [`^\d{8}$`], parsed. *)
Definition cep_pattern : regex :=
  Concat BeginText (Concat (Repeat PerlDigit 8) EndText).

(** ** Package [strconv] and [net/url], as far as the messages and the
    query string need them *)

Definition hex_digit (upper : bool) (n : nat) : ascii :=
  if (n <? 10)%nat then ascii_of_nat (48 + n)
  else ascii_of_nat ((if upper then 55 else 87) + n).

Definition hex_byte (upper : bool) (c : ascii) : string :=
  String (hex_digit upper (nat_of_ascii c / 16))
    (String (hex_digit upper (nat_of_ascii c mod 16)) EmptyString).

Definition is_alnum (c : ascii) : bool :=
  let n := nat_of_ascii c in
  is_digit c || ((65 <=? n) && (n <=? 90))%nat || ((97 <=? n) && (n <=? 122))%nat.

(** [url.QueryEscape]: letters, digits and [-_.~] stay, a space becomes
    [+], every other byte becomes [%XX] in upper-case hexadecimal. *)
Fixpoint QueryEscape (s : string) : string :=
  match s with
  | EmptyString => EmptyString
  | String c t =>
      (if is_alnum c || Ascii.eqb c "-" || Ascii.eqb c "_"
          || Ascii.eqb c "." || Ascii.eqb c "~"
       then String c EmptyString
       else if Ascii.eqb c " " then "+"
       else String "%" (hex_byte true c)) ++ QueryEscape t
  end.

(** The body of a [%q] rendering ([strconv.Quote]) for the bytes below 128:
    the quote and the backslash are escaped, control bytes are written as
    [\a \b \f \n \r \t \v] or [\xHH].  Bytes from 128 on are kept, which is
    what [strconv.Quote] does for printable UTF-8. *)
Fixpoint quote_body (s : string) : string :=
  match s with
  | EmptyString => EmptyString
  | String c t =>
      let n := nat_of_ascii c in
      (if (n =? 34)%nat then String "\" (String c EmptyString)
       else if (n =? 92)%nat then String "\" (String c EmptyString)
       else if (n =? 7)%nat then "\a" else if (n =? 8)%nat then "\b"
       else if (n =? 12)%nat then "\f" else if (n =? 10)%nat then "\n"
       else if (n =? 13)%nat then "\r" else if (n =? 9)%nat then "\t"
       else if (n =? 11)%nat then "\v"
       else if ((n <? 32) || (n =? 127))%nat then "\x" ++ hex_byte false c
       else String c EmptyString) ++ quote_body t
  end.

Definition Quote (s : string) : string :=
  String (ascii_of_nat 34) (quote_body s ++ String (ascii_of_nat 34) EmptyString).

(** [%d] of an [int]. *)
Definition Itoa (n : Z) : string := NilZero.string_of_int (Z.to_int n).

Definition newline : string := String "010" EmptyString.

(** ** float64

    Go's [float64] is IEEE 754 binary64 with rounding to nearest, ties to
    even: the primitive [float] of Rocq.  An untyped constant such as [1.8]
    is converted to the nearest [float64], as a literal is here.

    The Go specification lets an implementation fuse [x*y + z] into one
    operation that rounds once.  The gc compiler does so on arm64, ppc64,
    riscv64 and s390x, and does not on amd64 (at the default GOAMD64=v1) or
    on 386.  [fma64] is the fused operation: the exact product is added to
    [z] and the sum is rounded.  When an operand is zero, infinite or NaN
    the product is exact and both ways give the same value. *)
Definition fma64 (x y z : float) : float :=
  match Prim2SF x, Prim2SF y, Prim2SF z with
  | S754_finite sx mx ex, S754_finite sy my ey, S754_finite sz mz ez =>
      SF2Prim (SFadd prec emax
                 (S754_finite (xorb sx sy) (mx * my)%positive (ex + ey)%Z)
                 (S754_finite sz mz ez))
  | _, _, _ => (x * y + z)%float
  end.

(** ** Errors

    The [error] values that reach the handlers, by where they come from.
    The handlers only ever look at [err.Error()]. *)
Inductive error : Type :=
| UrlError (Op URL Err : string)   (* a url.Error: from http.NewRequestWithContext and client.Do *)
| ReadError (msg : string)         (* from io.ReadAll *)
| DecodeError (msg : string)       (* from a json Decode or Unmarshal: the decoder's own, or its reader's *)
| Errorf (msg : string).           (* fmt.Errorf with a message and no wrapped error *)

(** The message of a [url.Error] is [Op], the quoted [URL], a colon and
    [Err]: the format is [%s %q: %s]. *)
Definition Error (e : error) : string :=
  match e with
  | UrlError op url err => op ++ " " ++ Quote url ++ ": " ++ err
  | ReadError msg => msg
  | DecodeError msg => msg
  | Errorf msg => msg
  end.

(** ** HTTP messages *)

(** A JSON object of strings and numbers, as [encoding/json] writes one for
    a struct with such fields: the members in the order of the fields. *)
Inductive jvalue : Type :=
| JString (s : string)
| JNumber (f : float).

Definition json : Type := list (string * jvalue).

(** What a body is made of.  [Raw s] is the bytes of [s].  [Encoded j] is the
    bytes one [json.Encoder.Encode] call writes for [j]: the compact text of
    the document followed by one newline. *)
Inductive chunk : Type :=
| Raw (bytes : string)
| Encoded (doc : json).

(** [http.Header], with the canonical key as key. *)
Definition Header_Get (h : gmap string string) (key : string) : string :=
  default "" (h !! key).

(** A request as a handler receives it: the method, [r.URL.Path], and what
    reading [r.Body] to its end gives. *)
Record Request : Type := {
  Method : string;
  Path : string;
  ReqBody : string + error;
}.

(** A request as the client sends it ([http.NewRequestWithContext] with a
    nil body). *)
Record ClientRequest : Type := {
  ReqMethod : string;
  ReqURL : string;
}.

(** A response as [client.Do] returns it. *)
Record Response : Type := {
  StatusCode : Z;
  Header : gmap string string;
  Body : list chunk;
}.

(** The [http.ResponseWriter] of one request, as [httptest.ResponseRecorder]
    keeps it: the live header map, the status line with the snapshot of the
    headers taken by the first [WriteHeader], and the bytes written. *)
Record ResponseWriter : Type := {
  rw_header : gmap string string;
  rw_sent : option (Z * gmap string string);
  rw_body : list chunk;
}.

Definition new_recorder : ResponseWriter :=
  {| rw_header := ∅; rw_sent := None; rw_body := [] |}.

(** ** Effects *)

Inductive attribute : Type :=
| AttrString (key val : string)
| AttrFloat64 (key : string) (val : float).

(** What a handler does to the world around it, in order. *)
Inductive event : Type :=
| EvSpanStart (name : string)                    (* tracer.Start *)
| EvSpanEnd (name : string)                      (* span.End *)
| EvRecordError (name : string) (err : error)    (* span.RecordError *)
| EvSetAttributes (name : string) (a : attribute)
| EvReadAll                                      (* io.ReadAll(r.Body) *)
| EvBodyClose                                    (* r.Body.Close / resp.Body.Close *)
| EvLookupEnv (key : string)                     (* os.LookupEnv *)
| EvNewRequest (method url : string)             (* http.NewRequestWithContext *)
| EvDo (req : ClientRequest).                    (* client.Do: one round trip *)

(** The collaborators of a process.  [G] is what the package itself brings:
    its global variables and the decoding of its own struct types. *)
Record World (G : Type) : Type := {
  environ : string -> option string;
  url_Parse : string -> option string;             (* [Some cause]: the URL is rejected *)
  transport : ClientRequest -> Response + string;  (* a response, or the cause of the failure *)
  pkg : G;
}.
Arguments environ {G} _ _.
Arguments url_Parse {G} _ _.
Arguments transport {G} _ _.
Arguments pkg {G} _.

Record State : Type := {
  rw : ResponseWriter;
  trace : list event;
}.

Definition initial : State := {| rw := new_recorder; trace := [] |}.

(** A run ends normally or by a run-time panic. *)
Inductive result (A : Type) : Type :=
| Done (a : A)
| Panicked (msg : string).
Arguments Done {A} a.
Arguments Panicked {A} msg.

Definition M (G A : Type) : Type := World G -> State -> result A * State.

Definition ret {G A} (a : A) : M G A := fun _ st => (Done a, st).

Definition bind {G A B} (m : M G A) (k : A -> M G B) : M G B :=
  fun W st =>
    match m W st with
    | (Done a, st') => k a W st'
    | (Panicked msg, st') => (Panicked msg, st')
    end.

Declare Scope go_scope.
Delimit Scope go_scope with go.
Notation "'let!' x ':=' m 'in' k" := (bind m (fun x => k))
  (at level 10, x pattern, m at level 100, k at level 200) : go_scope.
Notation "m '>>' k" := (bind m (fun _ => k))
  (at level 100, k at level 200, right associativity) : go_scope.
Local Open Scope go_scope.

Definition panic {G A} (msg : string) : M G A := fun _ st => (Panicked msg, st).

Definition emit {G} (e : event) : M G unit :=
  fun _ st => (Done tt, {| rw := rw st; trace := (trace st ++ [e])%list |}).

Definition ask {G} : M G (World G) := fun W st => (Done W, st).

Definition get_rw {G} : M G ResponseWriter := fun _ st => (Done (rw st), st).

Definition put_rw {G} (w : ResponseWriter) : M G unit :=
  fun _ st => (Done tt, {| rw := w; trace := trace st |}).

(** [defer f()] at the head of [body]: [f] runs when [body] is left,
    normally or by a panic. *)
Definition defer {G A} (cleanup : M G unit) (body : M G A) : M G A :=
  fun W st =>
    match body W st with
    | (r, st') =>
        match cleanup W st' with
        | (Done _, st'') => (r, st'')
        | (Panicked msg, st'') => (Panicked msg, st'')
        end
    end.

(** *** The response writer *)

Definition Header_Set {G} (key val : string) : M G unit :=
  let! w := get_rw in
  put_rw {| rw_header := <[key := val]> (rw_header w);
            rw_sent := rw_sent w; rw_body := rw_body w |}.

Definition Header_Del {G} (key : string) : M G unit :=
  let! w := get_rw in
  put_rw {| rw_header := delete key (rw_header w);
            rw_sent := rw_sent w; rw_body := rw_body w |}.

(** [WriteHeader]: a second call is ignored; a code outside 100..999
    panics ([checkWriteHeaderCode]). *)
Definition WriteHeader {G} (code : Z) : M G unit :=
  let! w := get_rw in
  match rw_sent w with
  | Some _ => ret tt
  | None =>
      if (code <? 100)%Z || (999 <? code)%Z
      then panic ("invalid WriteHeader code " ++ Itoa code)
      else put_rw {| rw_header := rw_header w;
                     rw_sent := Some (code, rw_header w);
                     rw_body := rw_body w |}
  end.

(** [Write]: sends the header with status 200 if none was sent, then
    appends.  (The sniffing of a missing Content-Type is the server's.) *)
Definition Write {G} (c : chunk) : M G unit :=
  WriteHeader 200 >>
  let! w := get_rw in
  put_rw {| rw_header := rw_header w; rw_sent := rw_sent w;
            rw_body := (rw_body w ++ [c])%list |}.

(** [http.Error]. *)
Definition http_Error {G} (msg : string) (code : Z) : M G unit :=
  Header_Del "Content-Length" >>
  Header_Set "Content-Type" "text/plain; charset=utf-8" >>
  Header_Set "X-Content-Type-Options" "nosniff" >>
  WriteHeader code >>
  Write (Raw (msg ++ newline)).   (* fmt.Fprintln(w, msg) *)

(** [io.Copy(w, body)]. *)
Fixpoint io_Copy {G} (body : list chunk) : M G unit :=
  match body with
  | [] => ret tt
  | c :: cs => Write c >> io_Copy cs
  end.

(** *** The tracer, the environment and the client *)

Definition tracer_Start {G} (name : string) : M G unit := emit (EvSpanStart name).
Definition span_End {G} (name : string) : M G unit := emit (EvSpanEnd name).
Definition span_RecordError {G} (name : string) (err : error) : M G unit :=
  emit (EvRecordError name err).
Definition span_SetAttributes {G} (name : string) (a : attribute) : M G unit :=
  emit (EvSetAttributes name a).

Definition os_LookupEnv {G} (key : string) : M G (option string) :=
  emit (EvLookupEnv key) >>
  let! W := ask in ret (environ W key).

Definition io_ReadAll {G} (r : Request) : M G (string + error) :=
  emit EvReadAll >> ret (ReqBody r).

Definition Body_Close {G} : M G unit := emit EvBodyClose.

(** [http.NewRequestWithContext(ctx, method, url, nil)] with a valid method
    and a context that is not nil: it fails when [url.Parse] does. *)
Definition http_NewRequestWithContext {G} (method url : string)
  : M G (ClientRequest + error) :=
  emit (EvNewRequest method url) >>
  let! W := ask in
  match url_Parse W url with
  | Some cause => ret (inr (UrlError "parse" url cause))
  | None => ret (inl {| ReqMethod := method; ReqURL := url |})
  end.

Fixpoint ToLower (s : string) : string :=
  match s with
  | EmptyString => EmptyString
  | String c t =>
      let n := nat_of_ascii c in
      String (if ((65 <=? n) && (n <=? 90))%nat then ascii_of_nat (n + 32) else c)
             (ToLower t)
  end.

(** The [Op] of the error of a round trip: the method with its first letter
    kept and the rest in lower case ("Get" for "GET"). *)
Definition urlErrorOp (method : string) : string :=
  match method with
  | EmptyString => "Get"
  | String c t => String c (ToLower t)
  end.

(** [client.Do(req)]: one round trip; its error is always a [url.Error]. *)
Definition client_Do {G} (req : ClientRequest) : M G (Response + error) :=
  emit (EvDo req) >>
  let! W := ask in
  match transport W req with
  | inl resp => ret (inl resp)
  | inr cause => ret (inr (UrlError (urlErrorOp (ReqMethod req)) (ReqURL req) cause))
  end.

(** ** Service A: servico_a/main.go *)
Module ServicoA.

(** [CepInput], main.go:71. *)
Record CepInput : Type := { Cep : string }.

(** What package main of Service A brings: for [json.Unmarshal(body, &input)],
    the decoded [CepInput] or the decoder's error. *)
Record Pkg : Type := {
  json_Unmarshal : string -> CepInput + error;
}.

(** [isValidCep], main.go:140.  The error result of [regexp.MatchString] is
    dropped by the source; the pattern is well formed, so it is always nil. *)
Definition isValidCep (cep : string) : bool := MatchString cep_pattern cep.

(** The URL of the downstream request, main.go:152-157: the base address
    is SERVICE_B_URL when it is set, the default otherwise. *)
Definition targetURL (env : option string) (cep : string) : string :=
  let serviceB_URL := default "http://service-b:8081" env in
  serviceB_URL ++ "/weather/" ++ cep.

(** [forwardRequestToServiceB], main.go:146. *)
Definition forwardRequestToServiceB (r : Request) (cep : string) : M Pkg unit :=
  let span := "forwardRequestToServiceB" in
  tracer_Start span >>
  defer (span_End span) (
    let! env := os_LookupEnv "SERVICE_B_URL" in
    let! req := http_NewRequestWithContext "GET" (targetURL env cep) in
    match req with
    | inr _ => http_Error "Failed to create request for service B" 500
    | inl req =>
        let! resp := client_Do req in
        match resp with
        | inr _ => http_Error "Failed to call service B" 500
        | inl resp =>
            defer Body_Close (
              Header_Set "Content-Type" (Header_Get (Header resp) "Content-Type") >>
              WriteHeader (StatusCode resp) >>
              io_Copy (Body resp))
        end
    end).

(** [handleCepRequest], main.go:105. *)
Definition handleCepRequest (r : Request) : M Pkg unit :=
  if negb (String.eqb (Method r) "POST")
  then http_Error "Method not allowed" 405
  else
    let span := "handleCepRequest" in
    tracer_Start span >>
    defer (span_End span) (
      let! body := io_ReadAll r in
      match body with
      | inr _ => http_Error "Error reading request body" 400
      | inl body =>
          defer Body_Close (
            let! W := ask in
            match json_Unmarshal (pkg W) body with
            | inr _ => http_Error "Error decoding JSON" 400
            | inl input =>
                if negb (isValidCep (Cep input))
                then WriteHeader 422 >> Write (Raw "invalid zipcode")
                else forwardRequestToServiceB r (Cep input)
            end)
      end).

End ServicoA.

(** ** Service B: servico_b/main.go *)
Module ServicoB.

(** [Local], main.go:35: the answer of ViaCEP. *)
Record Local : Type := { Localidade : string; Erro : bool }.

(** [Clima], main.go:41: the answer of WeatherAPI; the one field is
    [Current.TempC]. *)
Record Clima : Type := { Current_TempC : float }.

(** [TemperaturaFinal], main.go:48, with the JSON names [city], [temp_C],
    [temp_F] and [temp_K]. *)
Record TemperaturaFinal : Type := {
  City : string;
  TempC : float;
  TempF : float;
  TempK : float;
}.

(** What package main of Service B brings: the global [weatherApiKey];
    for [json.NewDecoder(resp.Body).Decode] into a [Local] and into a
    [Clima], the decoded value or the message of the error; and whether the
    compiler fused the multiplication and the addition of main.go:162. *)
Record Pkg : Type := {
  weatherApiKey : string;
  fused : bool;
  Decode_Local : list chunk -> Local + string;
  Decode_Clima : list chunk -> Clima + string;
}.

(** [isValidCep], main.go:177. *)
Definition isValidCep (cep : string) : bool := MatchString cep_pattern cep.

(** The URL of the lookup, main.go:188. *)
Definition viacep_url (cep : string) : string :=
  "https://viacep.com.br/ws/" ++ cep ++ "/json/".

(** The URL of the weather query, main.go:220-221. *)
Definition weather_url (key city : string) : string :=
  let encodedCity := QueryEscape city in
  "https://api.weatherapi.com/v1/current.json?key=" ++ key
  ++ "&q=" ++ encodedCity ++ "&aqi=no".

(** [SearchCep], main.go:183. *)
Definition SearchCep (cep : string) : M Pkg (Local + error) :=
  let span := "get-location-from-cep-api (SearchCep)" in
  tracer_Start span >>
  defer (span_End span) (
    let! req := http_NewRequestWithContext "GET" (viacep_url cep) in
    match req with
    | inr err => span_RecordError span err >> ret (inr err)
    | inl req =>
        let! resp := client_Do req in
        match resp with
        | inr err => span_RecordError span err >> ret (inr err)
        | inl resp =>
            defer Body_Close (
              let! W := ask in
              match Decode_Local (pkg W) (Body resp) with
              | inr msg =>
                  let err := DecodeError msg in
                  span_RecordError span err >> ret (inr err)
              | inl local =>
                  if Erro local
                  then ret (inr (Errorf "can not find zipcode"))
                  else ret (inl local)
              end)
        end
    end).

(** [GetWeather], main.go:215. *)
Definition GetWeather (city : string) : M Pkg (Clima + error) :=
  let span := "get-weather-from-weather-api (GetWeather)" in
  tracer_Start span >>
  defer (span_End span) (
    let! W := ask in
    let url := weather_url (weatherApiKey (pkg W)) city in
    let! req := http_NewRequestWithContext "GET" url in
    match req with
    | inr err => span_RecordError span err >> ret (inr err)
    | inl req =>
        let! resp := client_Do req in
        match resp with
        | inr err => span_RecordError span err >> ret (inr err)
        | inl resp =>
            defer Body_Close (
              if negb (StatusCode resp =? 200)%Z
              then
                let err := Errorf ("weather API returned status "
                                   ++ Itoa (StatusCode resp)) in
                span_RecordError span err >> ret (inr err)
              else
                match Decode_Clima (pkg W) (Body resp) with
                | inr msg =>
                    let err := DecodeError msg in
                    span_RecordError span err >> ret (inr err)
                | inl clima => ret (inl clima)
                end)
        end
    end).

(** The conversion and the assembly of the answer, main.go:161-170.
    [tempC*1.8 + 32] is two operations, each rounded, or one fused
    operation, as the build has it; [tempC + 273] is one operation. *)
Definition response (fused : bool) (local : Local) (clima : Clima)
  : TemperaturaFinal :=
  let tempC := Current_TempC clima in
  let tempF := if fused then fma64 tempC 1.8 32 else (tempC * 1.8 + 32)%float in
  let tempK := (tempC + 273)%float in
  {| City := Localidade local; TempC := tempC; TempF := tempF; TempK := tempK |}.

(** [json.Marshal] of a [TemperaturaFinal]: an object with the four tagged
    names in the order of the fields; a NaN or an infinity is an
    UnsupportedValueError, here [None]. *)
Definition Marshal (t : TemperaturaFinal) : option json :=
  if is_finite (TempC t) && is_finite (TempF t) && is_finite (TempK t)
  then Some [("city", JString (City t)); ("temp_C", JNumber (TempC t));
             ("temp_F", JNumber (TempF t)); ("temp_K", JNumber (TempK t))]
  else None.

(** [json.NewEncoder(w).Encode(v)]: nothing is written when [v] cannot be
    marshalled; the source drops the error. *)
Definition Encode (t : TemperaturaFinal) : M Pkg unit :=
  match Marshal t with
  | Some doc => Write (Encoded doc)
  | None => ret tt
  end.

(** [weatherHandler], main.go:130. *)
Definition weatherHandler (r : Request) : M Pkg unit :=
  let span := "weatherHandler-orchestration" in
  tracer_Start span >>
  defer (span_End span) (
    match slice_from (String.length "/weather/") (Path r) with
    | None => panic "slice bounds out of range"
    | Some cep =>
        if negb (isValidCep cep)
        then http_Error "invalid zipcode" 422
        else
          span_SetAttributes span (AttrString "cep.input" cep) >>
          let! found := SearchCep cep in
          match found with
          | inr err =>
              if String.eqb (Error err) "can not find zipcode"
              then http_Error (Error err) 404
              else http_Error (Error err) 500
          | inl local =>
              span_SetAttributes span (AttrString "city.name" (Localidade local)) >>
              let! sample := GetWeather (Localidade local) in
              match sample with
              | inr err => http_Error (Error err) 500
              | inl clima =>
                  span_SetAttributes span
                    (AttrFloat64 "temperature.celsius" (Current_TempC clima)) >>
                  let! W := ask in
                  let response := response (fused (pkg W)) local clima in
                  Header_Set "Content-Type" "application/json" >>
                  WriteHeader 200 >>
                  Encode response
              end
          end
    end).

End ServicoB.

(** ** The validator *)

(** Reading off [n] leading decimal digits: the rest of the text, if the
    first [n] bytes are digits. *)
Fixpoint strip_digits (n : nat) (s : string) : option string :=
  match n with
  | O => Some s
  | S n' =>
      match s with
      | String c t => if is_digit c then strip_digits n' t else None
      | EmptyString => None
      end
  end.

(** The words of the contract: a decimal digit is a byte from '0' to '9'. *)
Definition decimal_digit (c : ascii) : Prop :=
  (nat_of_ascii "0" <= nat_of_ascii c <= nat_of_ascii "9")%nat.

(** ** Running a handler and reading its output *)

(** The header map [http.Error] leaves on a fresh writer. *)
Definition error_header : gmap string string :=
  <["X-Content-Type-Options" := "nosniff"]>
    (<["Content-Type" := "text/plain; charset=utf-8"]> ∅).

(** The status of a response: what [WriteHeader] fixed, 200 when a body was
    written without it. *)
Definition status_of (w : ResponseWriter) : option Z := fst <$> rw_sent w.

Definition sent_header (w : ResponseWriter) : gmap string string :=
  match rw_sent w with
  | Some (_, h) => h
  | None => ∅
  end.

(** The response a client reads off the writer of a handler that returned.
    (Date and Content-Length, which the server adds, are left out: no code
    here reads them.) *)
Definition as_response (w : ResponseWriter) : Response :=
  {| StatusCode := default 200 (status_of w);
     Header := sent_header w;
     Body := rw_body w |}.

Definition is_round_trip (e : event) : bool :=
  match e with EvDo _ => true | _ => false end.

(** The calls that leave the process: building a request and sending it. *)
Definition is_outbound (e : event) : bool :=
  match e with EvDo _ | EvNewRequest _ _ => true | _ => false end.

(** [m], run in the world [W], ends with [res], leaves the response writer
    alone and adds [evs] to the trace, from every state. *)
Definition logs {G A} (W : World G) (m : M G A) (res : result A)
    (evs : list event) : Prop :=
  forall st, m W st = (res, {| rw := rw st; trace := (trace st ++ evs)%list |}).

(** Two worlds that give the same answers. *)
Record agree {G} (W1 W2 : World G) : Prop := {
  agree_environ : forall k, environ W1 k = environ W2 k;
  agree_url_Parse : forall u, url_Parse W1 u = url_Parse W2 u;
  agree_transport : forall q, transport W1 q = transport W2 q;
}.

(** Two runs that end alike: the same result, the same response, and the
    same events added to whatever each trace held before. *)
Definition alike {A} (before1 before2 : State)
    (run1 run2 : result A * State) : Prop :=
  fst run1 = fst run2 /\ rw (snd run1) = rw (snd run2) /\
  exists evs, trace (snd run1) = (trace before1 ++ evs)%list /\
              trace (snd run2) = (trace before2 ++ evs)%list.

(** ** Worlds to run the handlers in *)

(** The first check of [url.Parse]: a URL with an ASCII control byte in it
    is rejected. *)
Fixpoint has_ctl_byte (s : string) : bool :=
  match s with
  | EmptyString => false
  | String c t =>
      let n := nat_of_ascii c in
      (n <? 32)%nat || (n =? 127)%nat || has_ctl_byte t
  end.

Definition ctl_check (url : string) : option string :=
  if has_ctl_byte url
  then Some "net/url: invalid control character in URL"
  else None.

Definition tab : string := String "009" EmptyString.

(** What follows the prefix [p] in [s], if [s] starts with [p]. *)
Fixpoint strip_prefix (p s : string) : option string :=
  match p, s with
  | EmptyString, _ => Some s
  | String a p', String b s' => if Ascii.eqb a b then strip_prefix p' s' else None
  | String _ _, EmptyString => None
  end.

Definition dquote : string := String (ascii_of_nat 34) EmptyString.

(** The request body of the README: an object whose one member, [cep], is
    the code [cep]. *)
Definition cep_document (cep : string) : string :=
  "{" ++ dquote ++ "cep" ++ dquote ++ ":" ++ dquote ++ cep ++ dquote ++ "}".

(** The text up to the next quote, and what follows that quote. *)
Fixpoint until_quote (s : string) : option (string * string) :=
  match s with
  | EmptyString => None
  | String c t =>
      if (nat_of_ascii c =? 34)%nat then Some (EmptyString, t)
      else match until_quote t with
           | Some (a, b) => Some (String c a, b)
           | None => None
           end
  end.

(** A decoder that reads these bodies, and no other. *)
Definition decode_cep_document (body : string) : ServicoA.CepInput + error :=
  match strip_prefix ("{" ++ dquote ++ "cep" ++ dquote ++ ":" ++ dquote) body with
  | Some rest =>
      match until_quote rest with
      | Some (cep, tail) =>
          if String.eqb tail "}" then inl {| ServicoA.Cep := cep |}
          else inr (DecodeError "invalid character after top-level value")
      | None => inr (DecodeError "unexpected end of JSON input")
      end
  | None => inr (DecodeError "invalid character looking for beginning of value")
  end.

(** Service A with no SERVICE_B_URL set, a downstream
    that gives [answer] to every request, and that decoder. *)
Definition world_A (answer : Response + string) : World ServicoA.Pkg :=
  {| environ := fun _ => None;
     url_Parse := ctl_check;
     transport := fun _ => answer;
     pkg := {| ServicoA.json_Unmarshal := decode_cep_document |} |}.

(** Service B built without fused operations (amd64), with the key [key];
    ViaCEP answers [vstatus] and its body decodes to [loc]; WeatherAPI
    answers [wstatus] and its body decodes to [clima]; [reject] is what
    [url.Parse] says of a URL. *)
Definition world_B (key : string) (reject : string -> option string)
    (vstatus : Z) (loc : ServicoB.Local + string) (wstatus : Z)
    (clima : ServicoB.Clima + string) : World ServicoB.Pkg :=
  {| environ := fun _ => None;
     url_Parse := reject;
     transport := fun req =>
       inl {| StatusCode := if String.prefix "https://viacep.com.br/" (ReqURL req)
                            then vstatus else wstatus;
              Header := ∅;
              Body := [Raw (ReqURL req)] |};
     pkg := {| ServicoB.weatherApiKey := key;
               ServicoB.fused := false;
               ServicoB.Decode_Local := fun _ => loc;
               ServicoB.Decode_Clima := fun _ => clima |} |}.

Definition sao_paulo : ServicoB.Local :=
  {| ServicoB.Localidade := "São Paulo"; ServicoB.Erro := false |}.

Definition not_found : ServicoB.Local :=
  {| ServicoB.Localidade := ""; ServicoB.Erro := true |}.

Definition nameless : ServicoB.Local :=
  {| ServicoB.Localidade := ""; ServicoB.Erro := false |}.


Definition get (path : string) : Request :=
  {| Method := "GET"; Path := path; ReqBody := inl "" |}.

(** The request of the README for the code [cep]. *)
Definition post (cep : string) : Request :=
  {| Method := "POST"; Path := "/"; ReqBody := inl (cep_document cep) |}.

(** ** Responses, documents and worlds the properties speak of *)

(** The response [http.Error] leaves on a fresh writer. *)
Definition error_response (code : Z) (msg : string) : ResponseWriter :=
  {| rw_header := error_header;
     rw_sent := Some (code, error_header);
     rw_body := [Raw (msg ++ newline)] |}.

Definition json_header : gmap string string :=
  <["Content-Type" := "application/json"]> ∅.

(** The header map of a relayed response: the Content-Type of the
    downstream response and nothing else. *)
Definition relayed_header (resp : Response) : gmap string string :=
  <["Content-Type" := Header_Get (Header resp) "Content-Type"]> ∅.

(** The answer of Service B to a code that is not found, as Service A
    receives it. *)
Definition not_found_response : Response :=
  as_response (error_response 404 "can not find zipcode").

(** A key with a tab in it: [url.Parse] rejects the URL built from it. *)
Definition tabbed_key : string := "k" ++ tab ++ "ey".

(** The hop from Service A to a Service B that runs in the world [WB] and
    listens at the default address: the request is handled by
    [weatherHandler] and its response comes back; a handler that panics
    gives no response. *)
Definition downstream (WB : World ServicoB.Pkg) (req : ClientRequest)
  : Response + string :=
  match strip_prefix "http://service-b:8081" (ReqURL req) with
  | Some path =>
      match ServicoB.weatherHandler (get path) WB initial with
      | (Done _, st) => inl (as_response (rw st))
      | (Panicked _, _) => inr "EOF"
      end
  | None => inr "dial tcp: lookup failed"
  end.

(** Service A in front of that Service B. *)
Definition world_A_over (WB : World ServicoB.Pkg) : World ServicoA.Pkg :=
  {| environ := fun _ => None;
     url_Parse := ctl_check;
     transport := downstream WB;
     pkg := {| ServicoA.json_Unmarshal := decode_cep_document |} |}.

(** Service B, built for amd64, where the lookup gives São Paulo and the
    weather 21.0. *)
Definition world_sao_paulo_21 : World ServicoB.Pkg :=
  world_B "key" ctl_check 200 (inl sao_paulo) 200
    (inl {| ServicoB.Current_TempC := 21 |}).

(** Service B where the lookup answers 404 with a body that decodes to a
    [Local] with no locality and no flag. *)
Definition world_nameless_404 : World ServicoB.Pkg :=
  world_B "key" ctl_check 404 (inl nameless) 200 (inr "EOF").

(** The body of the claim, read as a JSON document. *)
Definition claimed_document : json :=
  [("city", JString "São Paulo"); ("temp_C", JNumber 21.0);
   ("temp_F", JNumber 69.8); ("temp_K", JNumber 294.0)].

(** The document the handlers answer with: [temp_F] is the binary64 value
    next above that of 69.8 (it prints as 69.80000000000001) when the
    product and the sum both round, that of 69.8 when they are fused. *)
Definition answered_document (fused : bool) : json :=
  [("city", JString "São Paulo"); ("temp_C", JNumber 21);
   ("temp_F", JNumber (if fused then 69.8 else 0x1.1733333333334p+6));
   ("temp_K", JNumber 294)].

(** The same program text run in two worlds, from two states with the same
    response writer: the runs end alike. *)
Definition same {G A} (W1 W2 : World G) (m1 m2 : M G A) : Prop :=
  forall st1 st2, rw st1 = rw st2 -> alike st1 st2 (m1 W1 st1) (m2 W2 st2).

(** ** Reading a trace *)

(** The requests sent, in order. *)
Fixpoint round_trips (evs : list event) : list ClientRequest :=
  match evs with
  | [] => []
  | EvDo req :: t => req :: round_trips t
  | _ :: t => round_trips t
  end.

(** The spans of a trace, followed with a stack: a span that ends is the
    last one started and not yet ended.  [None] when a span ends that is not
    the innermost open one. *)
Fixpoint open_spans (stack : list string) (evs : list event)
  : option (list string) :=
  match evs with
  | [] => Some stack
  | EvSpanStart name :: t => open_spans (name :: stack) t
  | EvSpanEnd name :: t =>
      match stack with
      | top :: rest => if String.eqb name top then open_spans rest t else None
      | [] => None
      end
  | _ :: t => open_spans stack t
  end.

(** Every span started is ended, innermost first, and none is left open. *)
Definition well_bracketed (evs : list event) : Prop :=
  open_spans [] evs = Some [].

(** The errors recorded on spans, in order. *)
Fixpoint recorded_errors (evs : list event) : list error :=
  match evs with
  | [] => []
  | EvRecordError _ err :: t => err :: recorded_errors t
  | _ :: t => recorded_errors t
  end.


(** Service A with SERVICE_B_URL set to [base], a downstream that gives
    [answer] to every request, and the decoder of the README's document. *)
Definition world_A_at (base : string) (answer : Response + string)
  : World ServicoA.Pkg :=
  {| environ := fun key =>
       if String.eqb key "SERVICE_B_URL" then Some base else None;
     url_Parse := ctl_check;
     transport := fun _ => answer;
     pkg := {| ServicoA.json_Unmarshal := decode_cep_document |} |}.

(** A request whose body breaks off while it is read. *)
Definition broken_post : Request :=
  {| Method := "POST"; Path := "/";
     ReqBody := inr (ReadError "unexpected EOF") |}.

(** A POST with the bytes [body]. *)
Definition post_bytes (body : string) : Request :=
  {| Method := "POST"; Path := "/"; ReqBody := inl body |}.

(** The number of bodies closed. *)
Fixpoint closes (evs : list event) : nat :=
  match evs with
  | [] => 0
  | EvBodyClose :: t => S (closes t)
  | _ :: t => closes t
  end.

(** The number of round trips that brought a response back. *)
Fixpoint answered {G} (W : World G) (evs : list event) : nat :=
  match evs with
  | [] => 0
  | EvDo req :: t =>
      match transport W req with
      | inl _ => S (answered W t)
      | inr _ => answered W t
      end
  | _ :: t => answered W t
  end.

(** ** Reading a string byte by byte *)

Fixpoint all_bytes (p : ascii -> bool) (s : string) : bool :=
  match s with
  | EmptyString => true
  | String c t => p c && all_bytes p t
  end.

(** The bytes an escaped query value is made of: letters, digits,
    [-_.~], the [+] of a space and the [%] of an escape. *)
Definition is_query_safe (c : ascii) : bool :=
  is_alnum c || Ascii.eqb c "-" || Ascii.eqb c "_" || Ascii.eqb c "."
  || Ascii.eqb c "~" || Ascii.eqb c "+" || Ascii.eqb c "%".

(** The bytes [strconv.Quote] writes as they are: printable ASCII other
    than the quote and the backslash. *)
Definition is_plain (c : ascii) : bool :=
  let n := nat_of_ascii c in
  (32 <=? n)%nat && (n <? 127)%nat && negb (n =? 34)%nat && negb (n =? 92)%nat.

(** The value of a hexadecimal digit in upper case. *)
Definition unhex (c : ascii) : nat :=
  let n := nat_of_ascii c in
  if (n <? 58)%nat then (n - 48)%nat else (n - 55)%nat.

(** Reading an escaped query value back: [+] is a space, [%XX] is the byte
    with that value, any other byte is itself.  It tells the escaped forms
    of two strings apart. *)
Fixpoint unescape (s : string) : string :=
  match s with
  | EmptyString => EmptyString
  | String c t =>
      if Ascii.eqb c "+" then String " " (unescape t)
      else if Ascii.eqb c "%" then
        match t with
        | String h (String l t') =>
            String (ascii_of_nat (16 * unhex h + unhex l)) (unescape t')
        | _ => String c (unescape t)
        end
      else String c (unescape t)
  end.

(** Service B with the key [s3cr3t], where the lookup gives São Paulo and
    the weather API cannot be reached. *)
Definition world_weather_down : World ServicoB.Pkg :=
  {| environ := fun _ => None;
     url_Parse := ctl_check;
     transport := fun req =>
       if String.prefix "https://viacep.com.br/" (ReqURL req)
       then inl {| StatusCode := 200; Header := ∅;
                   Body := [Raw (ReqURL req)] |}
       else inr "context deadline exceeded";
     pkg := {| ServicoB.weatherApiKey := "s3cr3t";
               ServicoB.fused := false;
               ServicoB.Decode_Local := fun _ => inl sao_paulo;
               ServicoB.Decode_Clima := fun _ => inr "EOF" |} |}.
(** * Properties *)

Lemma is_digit_spec c : is_digit c = true <-> decimal_digit c.
Proof.
  unfold is_digit, decimal_digit. change (nat_of_ascii "0") with 48%nat.
  change (nat_of_ascii "9") with 57%nat.
  rewrite andb_true_iff, !Nat.leb_le. reflexivity.
Qed.

Lemma match_at_digit pos s k :
  match_at PerlDigit pos s k =
  match s with
  | String c t => is_digit c && k (S pos) t
  | EmptyString => false
  end.
Proof. reflexivity. Qed.

Lemma match_at_repeat_digit n : forall pos s k,
  match_at (Repeat PerlDigit n) pos s k =
  match strip_digits n s with
  | Some t => k (pos + n)%nat t
  | None => false
  end.
Proof.
  induction n as [|n IH]; intros pos s k.
  - simpl. now rewrite Nat.add_0_r.
  - change (match_at (Repeat PerlDigit (S n)) pos s k)
      with (match_at PerlDigit pos s
              (fun p t => match_at (Repeat PerlDigit n) p t k)).
    rewrite match_at_digit. destruct s as [|c t]; [reflexivity|].
    cbn [strip_digits]. destruct (is_digit c); [|reflexivity].
    rewrite andb_true_l, IH.
    now replace (S pos + n)%nat with (pos + S n)%nat by lia.
Qed.

Lemma strip_digits_all n : forall s,
  strip_digits n s = Some EmptyString <->
  String.length s = n /\ (forall c, In c (list_ascii_of_string s) -> decimal_digit c).
Proof.
  induction n as [|n IH]; intros s.
  - simpl. split.
    + intros [= ->]. split; [reflexivity|]. intros c [].
    + intros [H _]. destruct s; [reflexivity|discriminate].
  - destruct s as [|c t]; simpl.
    + split; [discriminate|]. intros [H _]. discriminate.
    + destruct (is_digit c) eqn:E.
      * rewrite IH. split.
        -- intros [L A]. split; [now rewrite L|].
           intros d [<-|Hd]; [now apply is_digit_spec|now apply A].
        -- intros [L A]. split; [now injection L|]. intros d Hd. apply A. now right.
      * split; [discriminate|]. intros [_ A].
        assert (D : decimal_digit c) by (apply A; now left).
        apply is_digit_spec in D. congruence.
Qed.

Lemma cep_pattern_not_at_start pos s k :
  match_at cep_pattern (S pos) s k = false.
Proof. reflexivity. Qed.

Lemma search_cep_later s : forall pos, search_from cep_pattern (S pos) s = false.
Proof.
  induction s as [|c t IH]; intros pos.
  - reflexivity.
  - change (search_from cep_pattern (S pos) (String c t))
      with (match_at cep_pattern (S pos) (String c t) (fun _ _ => true)
            || search_from cep_pattern (S (S pos)) t).
    now rewrite cep_pattern_not_at_start, IH.
Qed.

Lemma MatchString_cep s :
  MatchString cep_pattern s = true <-> strip_digits 8 s = Some EmptyString.
Proof.
  unfold MatchString.
  assert (E : search_from cep_pattern 0 s
              = match_at cep_pattern 0 s (fun _ _ => true)).
  { destruct s as [|c t]; [reflexivity|].
    change (search_from cep_pattern 0 (String c t))
      with (match_at cep_pattern 0 (String c t) (fun _ _ => true)
            || search_from cep_pattern 1 t).
    now rewrite search_cep_later, orb_false_r. }
  rewrite E. unfold cep_pattern.
  change (match_at (Concat BeginText (Concat (Repeat PerlDigit 8) EndText)) 0 s
            (fun _ _ => true))
    with (match_at (Repeat PerlDigit 8) 0 s
            (fun p t => match_at EndText p t (fun _ _ => true))).
  rewrite match_at_repeat_digit.
  destruct (strip_digits 8 s) as [[|c t]|]; simpl; split; congruence.
Qed.

(** C1.  For every string, [isValidCep] (the same function in Service A and
    in Service B) answers true exactly when the string has length 8 and
    every byte of it is a decimal digit '0'..'9'; "12345678" is valid, and
    "12345", "123456789", "1234567a" and the empty string are not. *)
Theorem isValidCep_iff_eight_digits :
  (forall s : string,
      ServicoB.isValidCep s = ServicoA.isValidCep s /\
      (ServicoA.isValidCep s = true <->
       String.length s = 8%nat /\
       (forall c, In c (list_ascii_of_string s) -> decimal_digit c))) /\
  ServicoA.isValidCep "12345678" = true /\
  ServicoA.isValidCep "12345" = false /\
  ServicoA.isValidCep "123456789" = false /\
  ServicoA.isValidCep "1234567a" = false /\
  ServicoA.isValidCep "" = false.
Proof.
  split; [|repeat split].
  intros s. split; [reflexivity|].
  unfold ServicoA.isValidCep. rewrite MatchString_cep. apply strip_digits_all.
Qed.

(** ** The library functions at work *)

Example QueryEscape_sao_paulo : QueryEscape "São Paulo" = "S%C3%A3o+Paulo".
Proof. reflexivity. Qed.

Example QueryEscape_reserved : QueryEscape "a/b&c=d~e" = "a%2Fb%26c%3Dd~e".
Proof. reflexivity. Qed.

Example weather_url_sao_paulo :
  ServicoB.weather_url "key" "São Paulo"
  = "https://api.weatherapi.com/v1/current.json?key=key&q=S%C3%A3o+Paulo&aqi=no".
Proof. reflexivity. Qed.

Example targetURL_default :
  ServicoA.targetURL None "01001000" = "http://service-b:8081/weather/01001000".
Proof. reflexivity. Qed.

Example targetURL_configured :
  ServicoA.targetURL (Some "http://localhost:8081") "01001000"
  = "http://localhost:8081/weather/01001000".
Proof. reflexivity. Qed.

Example Error_of_round_trip :
  Error (UrlError (urlErrorOp "GET") "http://service-b:8081/weather/1" "EOF")
  = "Get " ++ dquote ++ "http://service-b:8081/weather/1" ++ dquote ++ ": EOF".
Proof. reflexivity. Qed.

Example Itoa_503 : Itoa 503 = "503".
Proof. reflexivity. Qed.

Example cep_document_decodes :
  decode_cep_document (cep_document "01001000")
  = inl {| ServicoA.Cep := "01001000" |}.
Proof. reflexivity. Qed.

Example tabbed_key_rejected :
  ctl_check (ServicoB.weather_url tabbed_key "São Paulo")
  = Some "net/url: invalid control character in URL".
Proof. reflexivity. Qed.

(** The fused operation and the two operations differ at 28.5 and at 21,
    and agree at 25. *)
Example fma64_at_work :
  fma64 28.5 1.8 32 = 83.3%float /\
  (28.5 * 1.8 + 32)%float = next_up 83.3 /\
  fma64 21 1.8 32 = 69.8%float /\
  (21 * 1.8 + 32)%float = next_up 69.8 /\
  fma64 25 1.8 32 = (25 * 1.8 + 32)%float.
Proof. repeat split. Qed.

(** ** Running the handlers in proofs *)

Ltac unfold_go :=
  unfold defer, bind, ret, emit, ask, get_rw, put_rw, panic, io_ReadAll,
    Body_Close, span_End, span_RecordError, span_SetAttributes, tracer_Start,
    os_LookupEnv, http_NewRequestWithContext, client_Do.

Ltac go := unfold_go; cbn.

Arguments ServicoA.isValidCep : simpl never.
Arguments ServicoB.isValidCep : simpl never.
Arguments ServicoB.SearchCep : simpl never.
Arguments ServicoB.GetWeather : simpl never.
Arguments ServicoA.forwardRequestToServiceB : simpl never.

(** The code is what follows the prefix of the route. *)
Lemma slice_from_weather cep :
  slice_from (String.length "/weather/") ("/weather/" ++ cep) = Some cep.
Proof. reflexivity. Qed.

(** ** Service A: the wrong method *)

(** C7.  For every request to Service A whose method is not POST, the
    handler answers 405 and does nothing else: the run is the same whatever
    the body and the decoder are, and the trace is left as it was, so the
    body is never read, parsed or validated. *)
Theorem handleCepRequest_wrong_method :
  forall (W : World ServicoA.Pkg) (r : Request) (before : list event),
    Method r <> "POST" ->
    ServicoA.handleCepRequest r W {| rw := new_recorder; trace := before |} =
    (Done tt,
     {| rw := {| rw_header := error_header;
                 rw_sent := Some (405, error_header);
                 rw_body := [Raw ("Method not allowed" ++ newline)] |};
        trace := before |}).
Proof.
  intros W r before H. unfold ServicoA.handleCepRequest.
  destruct (String.eqb_spec (Method r) "POST") as [E|E]; [contradiction|].
  vm_compute. reflexivity.
Qed.

Lemma handleCepRequest_wrong_method_witness :
  ServicoA.handleCepRequest (get "/") (world_A (inr "down")) initial =
  (Done tt,
   {| rw := {| rw_header := error_header;
               rw_sent := Some (405, error_header);
               rw_body := [Raw ("Method not allowed" ++ newline)] |};
      trace := [] |}).
Proof.
  apply (handleCepRequest_wrong_method (world_A (inr "down")) (get "/") []).
  simpl. discriminate.
Defined.

(** ** Both services: the invalid code *)

(** C5 as written fails for Service B: its body for "/weather/123" is not
    the bare text [invalid zipcode]. *)
Lemma weatherHandler_invalid_body_not_bare :
  rw_body (rw (snd (ServicoB.weatherHandler (get "/weather/123")
                      (world_B "key" ctl_check 200 (inl sao_paulo) 200
                         (inr "EOF")) initial)))
  <> [Raw "invalid zipcode"].
Proof. vm_compute. discriminate. Qed.

(** C5, amended.  For every request whose code fails validation, each
    handler answers 422 with a plain-text body and makes no call: Service A,
    once the body is read and decoded, writes exactly [invalid zipcode];
    Service B writes [invalid zipcode] followed by a newline, as
    [http.Error] does.  The traces hold no request built and none sent. *)
Theorem invalid_zipcode_422 :
  (forall (W : World ServicoA.Pkg) (r : Request) (body : string)
          (input : ServicoA.CepInput),
      Method r = "POST" ->
      ReqBody r = inl body ->
      ServicoA.json_Unmarshal (pkg W) body = inl input ->
      ServicoA.isValidCep (ServicoA.Cep input) = false ->
      ServicoA.handleCepRequest r W initial =
      (Done tt,
       {| rw := {| rw_header := ∅; rw_sent := Some (422, ∅);
                   rw_body := [Raw "invalid zipcode"] |};
          trace := [EvSpanStart "handleCepRequest"; EvReadAll; EvBodyClose;
                    EvSpanEnd "handleCepRequest"] |})) /\
  (forall (W : World ServicoB.Pkg) (r : Request) (cep : string),
      Path r = "/weather/" ++ cep ->
      ServicoB.isValidCep cep = false ->
      ServicoB.weatherHandler r W initial =
      (Done tt,
       {| rw := {| rw_header := error_header;
                   rw_sent := Some (422, error_header);
                   rw_body := [Raw ("invalid zipcode" ++ newline)] |};
          trace := [EvSpanStart "weatherHandler-orchestration";
                    EvSpanEnd "weatherHandler-orchestration"] |})).
Proof.
  split.
  - intros W r body input HM HB HJ HV.
    unfold ServicoA.handleCepRequest. rewrite HM. go.
    rewrite HB. cbn. rewrite HJ, HV. reflexivity.
  - intros W r cep HP HV.
    unfold ServicoB.weatherHandler. rewrite HP, slice_from_weather. go.
    rewrite HV. vm_compute. reflexivity.
Qed.

Lemma invalid_zipcode_422_witness :
  (status_of (rw (snd (ServicoA.handleCepRequest (post "123")
                         (world_A (inr "down")) initial))) = Some 422 /\
   filter is_outbound
     (trace (snd (ServicoA.handleCepRequest (post "123")
                    (world_A (inr "down")) initial))) = []) /\
  (status_of (rw (snd (ServicoB.weatherHandler (get "/weather/123")
                         (world_B "key" ctl_check 200 (inl sao_paulo) 200
                            (inr "EOF")) initial))) = Some 422 /\
   filter is_outbound
     (trace (snd (ServicoB.weatherHandler (get "/weather/123")
                    (world_B "key" ctl_check 200 (inl sao_paulo) 200
                       (inr "EOF")) initial))) = []).
Proof.
  destruct invalid_zipcode_422 as [HA HB]. split.
  - rewrite (HA (world_A (inr "down")) (post "123") (cep_document "123")
               {| ServicoA.Cep := "123" |});
      [split|..]; reflexivity.
  - rewrite (HB (world_B "key" ctl_check 200 (inl sao_paulo) 200 (inr "EOF"))
               (get "/weather/123") "123");
      [split|..]; reflexivity.
Defined.

(** ** The resolvers, case by case

    Each resolver leaves the response writer alone and only adds to the
    trace; what it returns is decided by the answers of the world. *)

Lemma logs_run {G A} (W : World G) (m : M G A) res evs st :
  logs W m res evs ->
  m W st = (res, {| rw := rw st; trace := (trace st ++ evs)%list |}).
Proof. intros H. apply H. Qed.

Lemma logs_fst {G A} (W : World G) (m : M G A) res evs st :
  logs W m res evs -> fst (m W st) = res.
Proof. intros H. now rewrite (H st). Qed.

Ltac logs_case :=
  intros; intros ?st; go;
  repeat match goal with
         | H : _ = _ |- _ => rewrite H; cbn
         end;
  rewrite <- ?app_assoc; reflexivity.

Section SearchCep_cases.
Variable W : World ServicoB.Pkg.
Variable cep : string.

Local Abbreviation span := "get-location-from-cep-api (SearchCep)".
Local Abbreviation url := (ServicoB.viacep_url cep).
Local Abbreviation req := {| ReqMethod := "GET"; ReqURL := url |}.

Lemma SearchCep_rejected cause :
  url_Parse W url = Some cause ->
  logs W (ServicoB.SearchCep cep)
    (Done (inr (UrlError "parse" url cause)))
    [EvSpanStart span; EvNewRequest "GET" url;
     EvRecordError span (UrlError "parse" url cause); EvSpanEnd span].
Proof. unfold ServicoB.SearchCep. logs_case. Qed.

Lemma SearchCep_unreachable cause :
  url_Parse W url = None ->
  transport W req = inr cause ->
  logs W (ServicoB.SearchCep cep)
    (Done (inr (UrlError "Get" url cause)))
    [EvSpanStart span; EvNewRequest "GET" url; EvDo req;
     EvRecordError span (UrlError "Get" url cause); EvSpanEnd span].
Proof. unfold ServicoB.SearchCep. logs_case. Qed.

Lemma SearchCep_undecodable resp msg :
  url_Parse W url = None ->
  transport W req = inl resp ->
  ServicoB.Decode_Local (pkg W) (Body resp) = inr msg ->
  logs W (ServicoB.SearchCep cep)
    (Done (inr (DecodeError msg)))
    [EvSpanStart span; EvNewRequest "GET" url; EvDo req;
     EvRecordError span (DecodeError msg); EvBodyClose; EvSpanEnd span].
Proof. unfold ServicoB.SearchCep. logs_case. Qed.

Lemma SearchCep_flagged resp local :
  url_Parse W url = None ->
  transport W req = inl resp ->
  ServicoB.Decode_Local (pkg W) (Body resp) = inl local ->
  ServicoB.Erro local = true ->
  logs W (ServicoB.SearchCep cep)
    (Done (inr (Errorf "can not find zipcode")))
    [EvSpanStart span; EvNewRequest "GET" url; EvDo req;
     EvBodyClose; EvSpanEnd span].
Proof. unfold ServicoB.SearchCep. logs_case. Qed.

Lemma SearchCep_found resp local :
  url_Parse W url = None ->
  transport W req = inl resp ->
  ServicoB.Decode_Local (pkg W) (Body resp) = inl local ->
  ServicoB.Erro local = false ->
  logs W (ServicoB.SearchCep cep) (Done (inl local))
    [EvSpanStart span; EvNewRequest "GET" url; EvDo req;
     EvBodyClose; EvSpanEnd span].
Proof. unfold ServicoB.SearchCep. logs_case. Qed.

(** In every world [SearchCep] returns, and only logs. *)
Lemma SearchCep_logs :
  exists res evs, logs W (ServicoB.SearchCep cep) (Done res) evs.
Proof.
  destruct (url_Parse W url) as [cause|] eqn:E1;
    [eauto using SearchCep_rejected|].
  destruct (transport W req) as [resp|cause] eqn:E2;
    [|eauto using SearchCep_unreachable].
  destruct (ServicoB.Decode_Local (pkg W) (Body resp)) as [local|msg] eqn:E3;
    [|eauto using SearchCep_undecodable].
  destruct (ServicoB.Erro local) eqn:E4;
    eauto using SearchCep_flagged, SearchCep_found.
Qed.
End SearchCep_cases.

Section GetWeather_cases.
Variable W : World ServicoB.Pkg.
Variable city : string.

Local Abbreviation span := "get-weather-from-weather-api (GetWeather)".
Local Abbreviation url :=
  (ServicoB.weather_url (ServicoB.weatherApiKey (pkg W)) city).
Local Abbreviation req := {| ReqMethod := "GET"; ReqURL := url |}.

Lemma GetWeather_rejected cause :
  url_Parse W url = Some cause ->
  logs W (ServicoB.GetWeather city)
    (Done (inr (UrlError "parse" url cause)))
    [EvSpanStart span; EvNewRequest "GET" url;
     EvRecordError span (UrlError "parse" url cause); EvSpanEnd span].
Proof. unfold ServicoB.GetWeather. logs_case. Qed.

Lemma GetWeather_unreachable cause :
  url_Parse W url = None ->
  transport W req = inr cause ->
  logs W (ServicoB.GetWeather city)
    (Done (inr (UrlError "Get" url cause)))
    [EvSpanStart span; EvNewRequest "GET" url; EvDo req;
     EvRecordError span (UrlError "Get" url cause); EvSpanEnd span].
Proof. unfold ServicoB.GetWeather. logs_case. Qed.

Lemma GetWeather_bad_status resp :
  url_Parse W url = None ->
  transport W req = inl resp ->
  StatusCode resp <> 200 ->
  logs W (ServicoB.GetWeather city)
    (Done (inr (Errorf ("weather API returned status "
                        ++ Itoa (StatusCode resp)))))
    [EvSpanStart span; EvNewRequest "GET" url; EvDo req;
     EvRecordError span
       (Errorf ("weather API returned status " ++ Itoa (StatusCode resp)));
     EvBodyClose; EvSpanEnd span].
Proof.
  intros H1 H2 H3. apply Z.eqb_neq in H3.
  unfold ServicoB.GetWeather. logs_case.
Qed.

Lemma GetWeather_undecodable resp msg :
  url_Parse W url = None ->
  transport W req = inl resp ->
  StatusCode resp = 200 ->
  ServicoB.Decode_Clima (pkg W) (Body resp) = inr msg ->
  logs W (ServicoB.GetWeather city)
    (Done (inr (DecodeError msg)))
    [EvSpanStart span; EvNewRequest "GET" url; EvDo req;
     EvRecordError span (DecodeError msg); EvBodyClose; EvSpanEnd span].
Proof.
  intros H1 H2 H3 H4. apply Z.eqb_eq in H3.
  unfold ServicoB.GetWeather. logs_case.
Qed.

Lemma GetWeather_sample resp clima :
  url_Parse W url = None ->
  transport W req = inl resp ->
  StatusCode resp = 200 ->
  ServicoB.Decode_Clima (pkg W) (Body resp) = inl clima ->
  logs W (ServicoB.GetWeather city) (Done (inl clima))
    [EvSpanStart span; EvNewRequest "GET" url; EvDo req;
     EvBodyClose; EvSpanEnd span].
Proof.
  intros H1 H2 H3 H4. apply Z.eqb_eq in H3.
  unfold ServicoB.GetWeather. logs_case.
Qed.

Lemma GetWeather_logs :
  exists res evs, logs W (ServicoB.GetWeather city) (Done res) evs.
Proof.
  destruct (url_Parse W url) as [cause|] eqn:E1;
    [eauto using GetWeather_rejected|].
  destruct (transport W req) as [resp|cause] eqn:E2;
    [|eauto using GetWeather_unreachable].
  destruct (Z.eq_dec (StatusCode resp) 200) as [E3|E3];
    [|eauto using GetWeather_bad_status].
  destruct (ServicoB.Decode_Clima (pkg W) (Body resp)) as [clima|msg] eqn:E4;
    eauto using GetWeather_sample, GetWeather_undecodable.
Qed.
End GetWeather_cases.

(** ** Service B: the orchestration, outcome by outcome *)

Section weatherHandler_cases.
Variable W : World ServicoB.Pkg.
Variable r : Request.
Variable cep : string.
Hypothesis routed : Path r = "/weather/" ++ cep.
Hypothesis valid : ServicoB.isValidCep cep = true.

Local Abbreviation span := "weatherHandler-orchestration".

Lemma weatherHandler_lookup_failed e evs :
  logs W (ServicoB.SearchCep cep) (Done (inr e)) evs ->
  ServicoB.weatherHandler r W initial =
  (Done tt,
   {| rw := error_response
              (if String.eqb (Error e) "can not find zipcode" then 404 else 500)
              (Error e);
      trace := ([EvSpanStart span;
                 EvSetAttributes span (AttrString "cep.input" cep)]
                ++ evs ++ [EvSpanEnd span])%list |}).
Proof using routed valid.
  intros H. unfold ServicoB.weatherHandler.
  rewrite routed, slice_from_weather. go. rewrite valid. cbn.
  rewrite (logs_run _ _ _ _ _ H). cbn.
  destruct (String.eqb (Error e) "can not find zipcode");
    vm_compute; reflexivity.
Qed.

Lemma weatherHandler_weather_failed local e evs1 evs2 :
  logs W (ServicoB.SearchCep cep) (Done (inl local)) evs1 ->
  logs W (ServicoB.GetWeather (ServicoB.Localidade local)) (Done (inr e)) evs2 ->
  ServicoB.weatherHandler r W initial =
  (Done tt,
   {| rw := error_response 500 (Error e);
      trace := ([EvSpanStart span;
                 EvSetAttributes span (AttrString "cep.input" cep)]
                ++ evs1
                ++ [EvSetAttributes span
                      (AttrString "city.name" (ServicoB.Localidade local))]
                ++ evs2 ++ [EvSpanEnd span])%list |}).
Proof using routed valid.
  intros H1 H2. unfold ServicoB.weatherHandler.
  rewrite routed, slice_from_weather. go. rewrite valid. cbn.
  rewrite (logs_run _ _ _ _ _ H1). cbn.
  rewrite (logs_run _ _ _ _ _ H2). cbn.
  unfold error_response.
  rewrite <- !app_assoc. reflexivity.
Qed.

Lemma weatherHandler_answered local clima evs1 evs2 :
  logs W (ServicoB.SearchCep cep) (Done (inl local)) evs1 ->
  logs W (ServicoB.GetWeather (ServicoB.Localidade local)) (Done (inl clima)) evs2 ->
  ServicoB.weatherHandler r W initial =
  (Done tt,
   {| rw := {| rw_header := json_header;
               rw_sent := Some (200, json_header);
               rw_body :=
                 match ServicoB.Marshal
                         (ServicoB.response (ServicoB.fused (pkg W)) local clima) with
                 | Some doc => [Encoded doc]
                 | None => []
                 end |};
      trace := ([EvSpanStart span;
                 EvSetAttributes span (AttrString "cep.input" cep)]
                ++ evs1
                ++ [EvSetAttributes span
                      (AttrString "city.name" (ServicoB.Localidade local))]
                ++ evs2
                ++ [EvSetAttributes span
                      (AttrFloat64 "temperature.celsius"
                         (ServicoB.Current_TempC clima));
                    EvSpanEnd span])%list |}).
Proof using routed valid.
  intros H1 H2. unfold ServicoB.weatherHandler.
  rewrite routed, slice_from_weather. go. rewrite valid. cbn.
  rewrite (logs_run _ _ _ _ _ H1). cbn.
  rewrite (logs_run _ _ _ _ _ H2). cbn.
  unfold ServicoB.Encode.
  destruct (ServicoB.Marshal _); cbn; rewrite <- !app_assoc; reflexivity.
Qed.
End weatherHandler_cases.

(** ** Service B: the lookup does not look at the status *)

Ltac in_list := cbn; repeat (first [left; reflexivity | right]).



(** ** Service B: what the lookup can return *)

(** The outcome of [SearchCep] in a world, read off the answers of the
    world: the URL is rejected; or the round trip fails; or the body does
    not decode; or it decodes, with the flag set or not. *)
Lemma SearchCep_outcome (W : World ServicoB.Pkg) (cep : string) :
  let url := ServicoB.viacep_url cep in
  let req := {| ReqMethod := "GET"; ReqURL := url |} in
  exists res evs,
    logs W (ServicoB.SearchCep cep) (Done res) evs /\
    ((exists cause, url_Parse W url = Some cause /\
                    res = inr (UrlError "parse" url cause)) \/
     (url_Parse W url = None /\
      exists cause, transport W req = inr cause /\
                    res = inr (UrlError "Get" url cause)) \/
     (url_Parse W url = None /\
      exists resp, transport W req = inl resp /\
        ((exists msg, ServicoB.Decode_Local (pkg W) (Body resp) = inr msg /\
                      res = inr (DecodeError msg)) \/
         (exists local, ServicoB.Decode_Local (pkg W) (Body resp) = inl local /\
            ((ServicoB.Erro local = true /\
              res = inr (Errorf "can not find zipcode")) \/
             (ServicoB.Erro local = false /\ res = inl local)))))).
Proof.
  intros url req. subst url req.
  destruct (url_Parse W (ServicoB.viacep_url cep)) as [cause|] eqn:E1.
  { eexists _, _. split; [apply (SearchCep_rejected W cep cause E1)|].
    left. eauto. }
  destruct (transport W {| ReqMethod := "GET"; ReqURL := ServicoB.viacep_url cep |})
    as [resp|cause] eqn:E2.
  2:{ eexists _, _. split; [apply (SearchCep_unreachable W cep cause E1 E2)|].
      right. left. eauto. }
  destruct (ServicoB.Decode_Local (pkg W) (Body resp)) as [local|msg] eqn:E3.
  2:{ eexists _, _. split; [apply (SearchCep_undecodable W cep resp msg E1 E2 E3)|].
      right. right. split; [reflexivity|]. exists resp. split; [reflexivity|].
      left. eauto. }
  destruct (ServicoB.Erro local) eqn:E4.
  - eexists _, _. split; [apply (SearchCep_flagged W cep resp local E1 E2 E3 E4)|].
    right. right. split; [reflexivity|]. exists resp. split; [reflexivity|].
    right. exists local. split; [exact E3|]. left. auto.
  - eexists _, _. split; [apply (SearchCep_found W cep resp local E1 E2 E3 E4)|].
    right. right. split; [reflexivity|]. exists resp. split; [reflexivity|].
    right. exists local. split; [exact E3|]. right. auto.
Qed.

(** ** Service B: the code that is not found *)

(** The message of a [url.Error] of this program never reads as the
    message of the not-found error. *)
Lemma UrlError_not_sentinel url cause :
  String.eqb (Error (UrlError "parse" url cause)) "can not find zipcode" = false /\
  String.eqb (Error (UrlError "Get" url cause)) "can not find zipcode" = false.
Proof. split; reflexivity. Qed.

(** C3 as written fails on the body: for a code that ViaCEP flags as not
    found the body of the 404 is not the bare message. *)
Lemma weatherHandler_not_found_body_not_bare :
  rw_body (rw (snd (ServicoB.weatherHandler (get "/weather/99999999")
                      (world_B "key" ctl_check 200 (inl not_found) 200
                         (inr "EOF")) initial)))
  <> [Raw "can not find zipcode"].
Proof. vm_compute. discriminate. Qed.

(** C3, amended.  [SearchCep] returns the not-found error, whose message is
    [can not find zipcode], exactly when the request was sent, the body of
    the response decodes and the decoded flag is true.  A body that fails to
    decode gives the decoder's error, not the not-found error.  The handler
    answers the not-found error with 404 and every other failure of
    [SearchCep] with 500 (the messages of the decoder being other than that
    of the not-found error); the body is the message of the error followed
    by a newline, as [http.Error] writes it. *)
Theorem SearchCep_not_found :
  forall (W : World ServicoB.Pkg) (cep : string),
    let url := ServicoB.viacep_url cep in
    let req := {| ReqMethod := "GET"; ReqURL := url |} in
    (fst (ServicoB.SearchCep cep W initial)
       = Done (inr (Errorf "can not find zipcode")) <->
     url_Parse W url = None /\
     exists resp local,
       transport W req = inl resp /\
       ServicoB.Decode_Local (pkg W) (Body resp) = inl local /\
       ServicoB.Erro local = true) /\
    (forall resp msg,
        url_Parse W url = None ->
        transport W req = inl resp ->
        ServicoB.Decode_Local (pkg W) (Body resp) = inr msg ->
        fst (ServicoB.SearchCep cep W initial) = Done (inr (DecodeError msg))) /\
    (forall (r : Request) (e : error),
        (forall body msg, ServicoB.Decode_Local (pkg W) body = inr msg ->
                          msg <> "can not find zipcode") ->
        Path r = "/weather/" ++ cep ->
        ServicoB.isValidCep cep = true ->
        fst (ServicoB.SearchCep cep W initial) = Done (inr e) ->
        fst (ServicoB.weatherHandler r W initial) = Done tt /\
        (e = Errorf "can not find zipcode" ->
         rw (snd (ServicoB.weatherHandler r W initial))
         = error_response 404 "can not find zipcode") /\
        (e <> Errorf "can not find zipcode" ->
         rw (snd (ServicoB.weatherHandler r W initial))
         = error_response 500 (Error e))).
Proof.
  intros W cep url req. subst url req.
  destruct (SearchCep_outcome W cep) as [res [evs [S C]]].
  rewrite (logs_fst _ _ _ _ initial S).
  split; [|split].
  - split.
    + intros [= ->].
      destruct C as [(c & E1 & ?)|[(E1 & c & E2 & ?)|(E1 & resp & E2 & C)]];
        try discriminate.
      destruct C as [(m & E3 & ?)|(l & E3 & [(E4 & ?)|(E4 & ?)])];
        try discriminate.
      eauto 6.
    + intros (E1 & resp & local & E2 & E3 & E4).
      destruct C as [(c & E1' & ?)|[(_ & c & E2' & ?)|(_ & resp' & E2' & C)]];
        try congruence.
      assert (resp' = resp) as -> by congruence.
      destruct C as [(m & E3' & ?)|(l & E3' & [(E4' & ?)|(E4' & ?)])];
        congruence.
  - intros resp msg E1 E2 E3.
    destruct C as [(c & E1' & ?)|[(_ & c & E2' & ?)|(_ & resp' & E2' & C)]];
      try congruence.
    assert (resp' = resp) as -> by congruence.
    destruct C as [(m & E3' & ?)|(l & E3' & [(E4' & ?)|(E4' & ?)])];
      congruence.
  - intros r e Hmsg HP HV [= ->].
    rewrite (weatherHandler_lookup_failed W r cep HP HV _ _ S). cbn.
    split; [reflexivity|]. split.
    + intros ->. reflexivity.
    + intros N.
      assert (F : String.eqb (Error e) "can not find zipcode" = false);
        [|now rewrite F].
      destruct C as [(c & E1 & [= ->])|[(E1 & c & E2 & [= ->])
                                      |(E1 & resp & E2 & C)]];
        [apply UrlError_not_sentinel..|].
      destruct C as [(m & E3 & [= ->])|(l & E3 & [(E4 & [= ->])|(E4 & ?)])];
        [|contradiction|discriminate].
      cbn. apply String.eqb_neq. eauto.
Qed.

Lemma SearchCep_not_found_witness :
  rw (snd (ServicoB.weatherHandler (get "/weather/99999999")
             (world_B "key" ctl_check 200 (inl not_found) 200 (inr "EOF"))
             initial))
  = error_response 404 "can not find zipcode" /\
  rw (snd (ServicoB.weatherHandler (get "/weather/99999999")
             (world_B "key" ctl_check 200 (inr "unexpected EOF") 200 (inr "EOF"))
             initial))
  = error_response 500 "unexpected EOF".
Proof.
  split.
  - destruct (SearchCep_not_found
                (world_B "key" ctl_check 200 (inl not_found) 200 (inr "EOF"))
                "99999999") as (_ & _ & H).
    destruct (H (get "/weather/99999999") (Errorf "can not find zipcode"))
      as (_ & H404 & _); [discriminate|reflexivity..|].
    apply H404. reflexivity.
  - destruct (SearchCep_not_found
                (world_B "key" ctl_check 200 (inr "unexpected EOF") 200 (inr "EOF"))
                "99999999") as (_ & _ & H).
    destruct (H (get "/weather/99999999") (DecodeError "unexpected EOF"))
      as (_ & _ & H500); [intros ? ? [= <-]; discriminate|reflexivity..|].
    apply H500. discriminate.
Defined.

(** ** Service B: the weather resolver *)

(** The outcome of [GetWeather] in a world, with the round trips it made. *)
Lemma GetWeather_outcome (W : World ServicoB.Pkg) (city : string) :
  let url := ServicoB.weather_url (ServicoB.weatherApiKey (pkg W)) city in
  let req := {| ReqMethod := "GET"; ReqURL := url |} in
  exists res evs,
    logs W (ServicoB.GetWeather city) (Done res) evs /\
    ((exists cause, url_Parse W url = Some cause /\
                    res = inr (UrlError "parse" url cause) /\
                    filter is_round_trip evs = []) \/
     (url_Parse W url = None /\ filter is_round_trip evs = [EvDo req] /\
      ((exists cause, transport W req = inr cause /\
                      res = inr (UrlError "Get" url cause)) \/
       (exists resp, transport W req = inl resp /\
          ((StatusCode resp <> 200 /\
            res = inr (Errorf ("weather API returned status "
                               ++ Itoa (StatusCode resp)))) \/
           (StatusCode resp = 200 /\
            ((exists msg, ServicoB.Decode_Clima (pkg W) (Body resp) = inr msg /\
                          res = inr (DecodeError msg)) \/
             (exists clima, ServicoB.Decode_Clima (pkg W) (Body resp) = inl clima /\
                            res = inl clima)))))))).
Proof.
  intros url req. subst url req.
  destruct (url_Parse W (ServicoB.weather_url (ServicoB.weatherApiKey (pkg W)) city))
    as [cause|] eqn:E1.
  { eexists _, _. split; [apply (GetWeather_rejected W city cause E1)|].
    left. eauto. }
  destruct (transport W {| ReqMethod := "GET";
              ReqURL := ServicoB.weather_url (ServicoB.weatherApiKey (pkg W)) city |})
    as [resp|cause] eqn:E2.
  2:{ eexists _, _. split; [apply (GetWeather_unreachable W city cause E1 E2)|].
      right. repeat split. left. eauto. }
  destruct (Z.eq_dec (StatusCode resp) 200) as [E3|E3].
  2:{ eexists _, _. split; [apply (GetWeather_bad_status W city resp E1 E2 E3)|].
      right. repeat split. right. exists resp. split; [reflexivity|].
      left. auto. }
  destruct (ServicoB.Decode_Clima (pkg W) (Body resp)) as [clima|msg] eqn:E4.
  - eexists _, _. split; [apply (GetWeather_sample W city resp clima E1 E2 E3 E4)|].
    right. repeat split. right. exists resp. split; [reflexivity|].
    right. split; [exact E3|]. right. eauto.
  - eexists _, _. split; [apply (GetWeather_undecodable W city resp msg E1 E2 E3 E4)|].
    right. repeat split. right. exists resp. split; [reflexivity|].
    right. split; [exact E3|]. left. eauto.
Qed.




(** ** Service A: the relay *)

(** Once the header is sent, [io.Copy] appends the body as it is. *)
Lemma io_Copy_sent {G} (W : World G) (body : list chunk) : forall st,
  rw_sent (rw st) <> None ->
  io_Copy body W st =
  (Done tt, {| rw := {| rw_header := rw_header (rw st);
                        rw_sent := rw_sent (rw st);
                        rw_body := (rw_body (rw st) ++ body)%list |};
               trace := trace st |}).
Proof.
  induction body as [|c cs IH]; intros [[h s b] t] Hs; cbn in *.
  - now rewrite app_nil_r.
  - destruct s as [x|]; [|contradiction].
    unfold Write, WriteHeader. go. rewrite IH by (cbn; congruence). cbn.
    now rewrite <- app_assoc.
Qed.

Lemma forwardRequestToServiceB_relays (W : World ServicoA.Pkg) (r : Request)
    (cep : string) (resp : Response) (before : list event) :
  let url := ServicoA.targetURL (environ W "SERVICE_B_URL") cep in
  let req := {| ReqMethod := "GET"; ReqURL := url |} in
  url_Parse W url = None ->
  transport W req = inl resp ->
  100 <= StatusCode resp <= 999 ->
  ServicoA.forwardRequestToServiceB r cep W
    {| rw := new_recorder; trace := before |}
  = (Done tt,
     {| rw := {| rw_header := relayed_header resp;
                 rw_sent := Some (StatusCode resp, relayed_header resp);
                 rw_body := Body resp |};
        trace := (before ++ [EvSpanStart "forwardRequestToServiceB";
                             EvLookupEnv "SERVICE_B_URL";
                             EvNewRequest "GET" url; EvDo req;
                             EvBodyClose;
                             EvSpanEnd "forwardRequestToServiceB"])%list |}).
Proof.
  intros url req H1 H2 H3. subst url req.
  unfold ServicoA.forwardRequestToServiceB. go. rewrite H1. cbn. rewrite H2. cbn.
  unfold Header_Set, WriteHeader. go.
  assert (R : (StatusCode resp <? 100)%Z || (999 <? StatusCode resp)%Z = false).
  { apply orb_false_iff. split; apply Z.ltb_ge; lia. }
  rewrite R. cbn. rewrite io_Copy_sent by (cbn; congruence). cbn.
  unfold relayed_header. rewrite <- !app_assoc. reflexivity.
Qed.

(** The whole run of Service A for a valid code whose request reaches the
    downstream service. *)
Lemma handleCepRequest_forwarded (W : World ServicoA.Pkg) (r : Request)
    (body : string) (input : ServicoA.CepInput) (resp : Response) :
  let url := ServicoA.targetURL (environ W "SERVICE_B_URL") (ServicoA.Cep input) in
  let req := {| ReqMethod := "GET"; ReqURL := url |} in
  Method r = "POST" ->
  ReqBody r = inl body ->
  ServicoA.json_Unmarshal (pkg W) body = inl input ->
  ServicoA.isValidCep (ServicoA.Cep input) = true ->
  url_Parse W url = None ->
  transport W req = inl resp ->
  100 <= StatusCode resp <= 999 ->
  ServicoA.handleCepRequest r W initial
  = (Done tt,
     {| rw := {| rw_header := relayed_header resp;
                 rw_sent := Some (StatusCode resp, relayed_header resp);
                 rw_body := Body resp |};
        trace := [EvSpanStart "handleCepRequest"; EvReadAll;
                  EvSpanStart "forwardRequestToServiceB";
                  EvLookupEnv "SERVICE_B_URL";
                  EvNewRequest "GET" url; EvDo req; EvBodyClose;
                  EvSpanEnd "forwardRequestToServiceB";
                  EvBodyClose; EvSpanEnd "handleCepRequest"] |}).
Proof.
  intros url req HM HB HJ HV H1 H2 H3. subst url req.
  unfold ServicoA.handleCepRequest. rewrite HM. go.
  rewrite HB. cbn. rewrite HJ, HV. cbn.
  rewrite (forwardRequestToServiceB_relays W r _ resp _ H1 H2 H3). reflexivity.
Qed.



(** ** Service B: the conversion *)

(** Two binary64 values with different signs, mantissas or exponents are
    different values. *)
Lemma float_neq (x y : float) : Prim2SF x <> Prim2SF y -> x <> y.
Proof. intros H E. apply H. now rewrite E. Qed.

(** C2 as written fails on its example: in a build that rounds the product
    and the sum (amd64), at 28.5 the handler's Fahrenheit value is not the
    binary64 value of 83.3. *)
Lemma response_28_5_not_83_3 :
  ServicoB.TempF
    (ServicoB.response false sao_paulo {| ServicoB.Current_TempC := 28.5 |})
  <> 83.3%float.
Proof. apply float_neq. vm_compute. discriminate. Qed.

(** C2, amended.  For every Celsius value [c] the weather resolver returns,
    the handler answers with [c], with [c*1.8+32] and with [c+273], computed
    in binary64 and not rounded to decimals; the offset is 273.  The sum
    [c+273] is rounded to the nearest value; [c*1.8+32] is rounded after the
    product and after the sum, or once where the compiler fuses the two.
    These three numbers are the body of the answer whenever all of them are
    finite.  At 28.5 the Kelvin value is 301.5, and the Fahrenheit value is
    the binary64 value next above that of 83.3 (it prints as
    83.30000000000001) when both operations round, that of 83.3 when they
    are fused, within 0.001 of 83.3 either way; at 25 the values are 77 and
    298. *)
Theorem response_conversion :
  (forall (W : World ServicoB.Pkg) (r : Request) (cep : string)
          (local : ServicoB.Local) (clima : ServicoB.Clima),
      Path r = "/weather/" ++ cep ->
      ServicoB.isValidCep cep = true ->
      fst (ServicoB.SearchCep cep W initial) = Done (inl local) ->
      fst (ServicoB.GetWeather (ServicoB.Localidade local) W initial)
        = Done (inl clima) ->
      let c := ServicoB.Current_TempC clima in
      let f := if ServicoB.fused (pkg W) then fma64 c 1.8 32
               else (c * 1.8 + 32)%float in
      let k := (c + 273)%float in
      let t := ServicoB.response (ServicoB.fused (pkg W)) local clima in
      ServicoB.TempC t = c /\ ServicoB.TempF t = f /\ ServicoB.TempK t = k /\
      (is_finite c && is_finite f && is_finite k = true ->
       rw_body (rw (snd (ServicoB.weatherHandler r W initial)))
       = [Encoded [("city", JString (ServicoB.Localidade local));
                   ("temp_C", JNumber c); ("temp_F", JNumber f);
                   ("temp_K", JNumber k)]])) /\
  (forall fused : bool,
      let t := ServicoB.response fused sao_paulo
                 {| ServicoB.Current_TempC := 28.5 |} in
      ServicoB.TempF t = (if fused then 83.3 else next_up 83.3)%float /\
      (abs (ServicoB.TempF t - 83.3) <? 0.001)%float = true /\
      ServicoB.TempK t = 301.5%float) /\
  next_up 83.3 = 0x1.4d33333333334p+6%float /\
  (forall fused : bool,
      let t := ServicoB.response fused sao_paulo
                 {| ServicoB.Current_TempC := 25 |} in
      ServicoB.TempF t = 77%float /\ ServicoB.TempK t = 298%float).
Proof.
  split; [|split; [|split]].
  - intros W r cep local clima HP HV HS HG c f k t. subst c f k t.
    split; [reflexivity|]. split; [now destruct (ServicoB.fused (pkg W))|].
    split; [reflexivity|]. intros F.
    destruct (SearchCep_logs W cep) as [res1 [evs1 S]].
    rewrite (logs_fst _ _ _ _ initial S) in HS. injection HS as ->.
    destruct (GetWeather_logs W (ServicoB.Localidade local)) as [res2 [evs2 G]].
    rewrite (logs_fst _ _ _ _ initial G) in HG. injection HG as ->.
    rewrite (weatherHandler_answered W r cep HP HV _ _ _ _ S G). cbn.
    unfold ServicoB.Marshal. cbn. now rewrite F.
  - intros [|]; repeat split.
  - reflexivity.
  - intros [|]; repeat split.
Qed.

Lemma response_conversion_witness :
  rw_body (rw (snd (ServicoB.weatherHandler (get "/weather/88010000")
                      (world_B "key" ctl_check 200 (inl sao_paulo) 200
                         (inl {| ServicoB.Current_TempC := 28.5 |})) initial)))
  = [Encoded [("city", JString "São Paulo");
              ("temp_C", JNumber 28.5);
              ("temp_F", JNumber 0x1.4d33333333334p+6);
              ("temp_K", JNumber 301.5)]].
Proof.
  destruct response_conversion as [H _].
  apply (H (world_B "key" ctl_check 200 (inl sao_paulo) 200
              (inl {| ServicoB.Current_TempC := 28.5 |}))
           (get "/weather/88010000") "88010000" sao_paulo
           {| ServicoB.Current_TempC := 28.5 |});
    reflexivity.
Defined.

(** ** Both services: the answer to a code that is found *)

(** C4 as written fails: with Service B built without fused operations
    (amd64), the body that comes back through Service A is the encoding of
    a document other than the one of the claim; its [temp_F] is not the
    binary64 value of 69.8. *)
Lemma success_body_not_as_claimed :
  rw_body (rw (snd (ServicoA.handleCepRequest (post "01001000")
                      (world_A_over world_sao_paulo_21) initial)))
  = [Encoded (answered_document false)] /\
  answered_document false <> claimed_document.
Proof.
  split; [vm_compute; reflexivity|].
  unfold answered_document, claimed_document. intros H.
  assert (E : 0x1.1733333333334p+6%float = 69.8%float) by congruence.
  revert E. apply float_neq. vm_compute. discriminate.
Qed.

(** C4, amended.  When the pipeline of Service B succeeds for a valid code,
    with the locality "São Paulo" and the temperature 21.0, Service B
    answers 200 with the JSON object whose members are, in this order,
    [city] "São Paulo", [temp_C] 21, [temp_F] the binary64 value of
    21*1.8+32 (69.80000000000001 when the product and the sum both round,
    69.8 when they are fused) and [temp_K] 294, written by the encoder with
    a newline after it; Service A, given that response, answers with the
    same status, Content-Type and body. *)
Theorem success_end_to_end :
  forall (WB : World ServicoB.Pkg) (rB : Request) (cep : string)
         (local : ServicoB.Local) (clima : ServicoB.Clima)
         (WA : World ServicoA.Pkg) (rA : Request) (body : string),
    Path rB = "/weather/" ++ cep ->
    ServicoB.isValidCep cep = true ->
    fst (ServicoB.SearchCep cep WB initial) = Done (inl local) ->
    ServicoB.Localidade local = "São Paulo" ->
    fst (ServicoB.GetWeather (ServicoB.Localidade local) WB initial)
      = Done (inl clima) ->
    ServicoB.Current_TempC clima = 21%float ->
    Method rA = "POST" ->
    ReqBody rA = inl body ->
    ServicoA.json_Unmarshal (pkg WA) body = inl {| ServicoA.Cep := cep |} ->
    let url := ServicoA.targetURL (environ WA "SERVICE_B_URL") cep in
    let outB := rw (snd (ServicoB.weatherHandler rB WB initial)) in
    url_Parse WA url = None ->
    transport WA {| ReqMethod := "GET"; ReqURL := url |}
      = inl (as_response outB) ->
    let outA := rw (snd (ServicoA.handleCepRequest rA WA initial)) in
    let document := answered_document (ServicoB.fused (pkg WB)) in
    status_of outB = Some 200 /\
    rw_body outB = [Encoded document] /\
    status_of outA = Some 200 /\
    Header_Get (sent_header outA) "Content-Type" = "application/json" /\
    rw_body outA = [Encoded document] /\
    map fst document = ["city"; "temp_C"; "temp_F"; "temp_K"].
Proof.
  intros WB rB cep [city erro] [c] WA rA body HP HV HS HL HG HC HM HB HJ
         url outB H1 H2 outA document.
  cbn in HL, HC. subst city c outA url document.
  destruct (SearchCep_logs WB cep) as [res1 [evs1 S]].
  rewrite (logs_fst _ _ _ _ initial S) in HS. injection HS as ->.
  destruct (GetWeather_logs WB "São Paulo") as [res2 [evs2 G]].
  cbn in HG. rewrite (logs_fst _ _ _ _ initial G) in HG. injection HG as ->.
  assert (B : outB = {| rw_header := json_header;
                        rw_sent := Some (200, json_header);
                        rw_body :=
                          [Encoded (answered_document (ServicoB.fused (pkg WB)))] |}).
  { subst outB. rewrite (weatherHandler_answered WB rB cep HP HV _ _ _ _ S G).
    cbn. now destruct (ServicoB.fused (pkg WB)). }
  rewrite B in H2 |- *.
  rewrite (handleCepRequest_forwarded WA rA body _ _ HM HB HJ HV H1 H2)
    by (cbn; lia).
  repeat split.
Qed.

Lemma success_end_to_end_witness :
  status_of (rw (snd (ServicoA.handleCepRequest (post "01001000")
                        (world_A_over world_sao_paulo_21) initial)))
  = Some 200 /\
  Header_Get (sent_header (rw (snd (ServicoA.handleCepRequest (post "01001000")
                                      (world_A_over world_sao_paulo_21)
                                      initial)))) "Content-Type"
  = "application/json" /\
  rw_body (rw (snd (ServicoA.handleCepRequest (post "01001000")
                      (world_A_over world_sao_paulo_21) initial)))
  = [Encoded (answered_document false)].
Proof.
  destruct (success_end_to_end world_sao_paulo_21 (get "/weather/01001000")
              "01001000" sao_paulo {| ServicoB.Current_TempC := 21 |}
              (world_A_over world_sao_paulo_21) (post "01001000")
              (cep_document "01001000"))
    as (_ & _ & H3 & H4 & H5 & _); try reflexivity.
  repeat split; assumption.
Defined.

(** ** Both services: one request, one answer *)

Section same_runs.
Context {G : Type} (W1 W2 : World G).
Hypothesis answers : agree W1 W2.

Lemma same_ret {A} (a : A) : same W1 W2 (ret a) (ret a).
Proof.
  intros st1 st2 E. repeat split; [exact E|].
  exists []. now rewrite !app_nil_r.
Qed.

Lemma same_panic {A} msg : same W1 W2 (@panic G A msg) (panic msg).
Proof.
  intros st1 st2 E. repeat split; [exact E|].
  exists []. now rewrite !app_nil_r.
Qed.

Lemma same_emit e : same W1 W2 (emit e) (emit e).
Proof. intros st1 st2 E. repeat split; [exact E|]. now exists [e]. Qed.

Lemma same_get_rw : same W1 W2 get_rw get_rw.
Proof.
  intros st1 st2 E. split; [cbn; now rewrite E|]. split; [exact E|].
  exists []. now rewrite !app_nil_r.
Qed.

Lemma same_put_rw w : same W1 W2 (put_rw w) (put_rw w).
Proof.
  intros st1 st2 E. repeat split.
  exists []. cbn. now rewrite !app_nil_r.
Qed.

Lemma same_bind {A B} (m1 m2 : M G A) (k1 k2 : A -> M G B) :
  same W1 W2 m1 m2 ->
  (forall a, same W1 W2 (k1 a) (k2 a)) ->
  same W1 W2 (bind m1 k1) (bind m2 k2).
Proof.
  intros Hm Hk st1 st2 E. unfold bind.
  destruct (Hm st1 st2 E) as (R & E' & evs & T1 & T2).
  destruct (m1 W1 st1) as [r1 s1], (m2 W2 st2) as [r2 s2].
  cbn in R, E', T1, T2. subst r2.
  destruct r1 as [a|msg].
  - destruct (Hk a s1 s2 E') as (R' & E'' & evs' & T1' & T2').
    repeat split; [exact R'|exact E''|].
    exists (evs ++ evs')%list.
    now rewrite T1', T2', T1, T2, !app_assoc.
  - repeat split; [exact E'|]. now exists evs.
Qed.

Lemma same_ask_bind {A} (k1 k2 : World G -> M G A) :
  same W1 W2 (k1 W1) (k2 W2) ->
  same W1 W2 (bind ask k1) (bind ask k2).
Proof. intros H st1 st2 E. apply (H st1 st2 E). Qed.

Lemma same_defer {A} (c1 c2 : M G unit) (b1 b2 : M G A) :
  same W1 W2 c1 c2 -> same W1 W2 b1 b2 ->
  same W1 W2 (defer c1 b1) (defer c2 b2).
Proof.
  intros Hc Hb st1 st2 E. unfold defer.
  destruct (Hb st1 st2 E) as (R & E' & evs & T1 & T2).
  destruct (b1 W1 st1) as [r1 s1], (b2 W2 st2) as [r2 s2].
  cbn in R, E', T1, T2. subst r2.
  destruct (Hc s1 s2 E') as (R' & E'' & evs' & T1' & T2').
  destruct (c1 W1 s1) as [q1 u1], (c2 W2 s2) as [q2 u2].
  cbn in R', E'', T1', T2'. subst q2.
  assert (T : exists evs0, trace u1 = (trace st1 ++ evs0)%list /\
                           trace u2 = (trace st2 ++ evs0)%list).
  { exists (evs ++ evs')%list. now rewrite T1', T2', T1, T2, !app_assoc. }
  destruct q1 as [[]|msg]; repeat split; assumption.
Qed.
End same_runs.

Ltac same_step :=
  match goal with
  | |- same _ _ (ret _) _ => apply same_ret
  | |- same _ _ (panic _) _ => apply same_panic
  | |- same _ _ (emit _) _ => apply same_emit
  | |- same _ _ get_rw _ => apply same_get_rw
  | |- same _ _ (put_rw _) _ => apply same_put_rw
  | |- same _ _ (defer _ _) _ => apply same_defer
  | |- same _ _ (bind ask _) _ => apply same_ask_bind
  | |- same _ _ (bind _ _) _ => apply same_bind; [|intros ?]
  | |- same _ _ (match ?x with _ => _ end) _ => destruct x
  | |- same _ _ (if ?x then _ else _) _ => destruct x
  end.

Section same_primitives.
Context {G : Type} (W1 W2 : World G).
Hypothesis answers : agree W1 W2.

Lemma same_Header_Set key val :
  same W1 W2 (Header_Set key val) (Header_Set key val).
Proof. unfold Header_Set. repeat same_step. Qed.

Lemma same_Header_Del key : same W1 W2 (Header_Del key) (Header_Del key).
Proof. unfold Header_Del. repeat same_step. Qed.

Lemma same_WriteHeader code : same W1 W2 (WriteHeader code) (WriteHeader code).
Proof. unfold WriteHeader. repeat same_step. Qed.

Lemma same_Write c : same W1 W2 (Write c) (Write c).
Proof.
  unfold Write. apply same_bind; [apply same_WriteHeader|intros _].
  repeat same_step.
Qed.

Lemma same_http_Error msg code :
  same W1 W2 (http_Error msg code) (http_Error msg code).
Proof.
  unfold http_Error.
  repeat match goal with
         | |- same _ _ (Header_Set _ _) _ => apply same_Header_Set
         | |- same _ _ (Header_Del _) _ => apply same_Header_Del
         | |- same _ _ (WriteHeader _) _ => apply same_WriteHeader
         | |- same _ _ (Write _) _ => apply same_Write
         | |- same _ _ (bind _ _) _ => apply same_bind; [|intros _]
         end.
Qed.

Lemma same_io_Copy body : same W1 W2 (io_Copy body) (io_Copy body).
Proof.
  induction body as [|c cs IH]; cbn.
  - apply same_ret.
  - apply same_bind; [apply same_Write|intros _; exact IH].
Qed.

Lemma same_os_LookupEnv key :
  same W1 W2 (os_LookupEnv key) (os_LookupEnv key).
Proof using answers.
  unfold os_LookupEnv. apply same_bind; [apply same_emit|intros _].
  apply same_ask_bind. rewrite (agree_environ _ _ answers). apply same_ret.
Qed.

Lemma same_NewRequest method url :
  same W1 W2 (http_NewRequestWithContext method url)
             (http_NewRequestWithContext method url).
Proof using answers.
  unfold http_NewRequestWithContext.
  apply same_bind; [apply same_emit|intros _].
  apply same_ask_bind. rewrite (agree_url_Parse _ _ answers).
  repeat same_step.
Qed.

Lemma same_client_Do req : same W1 W2 (client_Do req) (client_Do req).
Proof using answers.
  unfold client_Do. apply same_bind; [apply same_emit|intros _].
  apply same_ask_bind. rewrite (agree_transport _ _ answers).
  repeat same_step.
Qed.
End same_primitives.

Ltac same_go :=
  repeat match goal with
         | |- same _ _ (http_Error _ _) _ => apply same_http_Error
         | |- same _ _ (io_Copy _) _ => apply same_io_Copy
         | |- same _ _ (Write _) _ => apply same_Write
         | |- same _ _ (WriteHeader _) _ => apply same_WriteHeader
         | |- same _ _ (Header_Set _ _) _ => apply same_Header_Set
         | |- same _ _ (os_LookupEnv _) _ => apply same_os_LookupEnv; assumption
         | |- same _ _ (http_NewRequestWithContext _ _) _ =>
             apply same_NewRequest; assumption
         | |- same _ _ (client_Do _) _ => apply same_client_Do; assumption
         | _ => same_step
         end.

Section same_handlers_A.
Variables W1 W2 : World ServicoA.Pkg.
Hypothesis answers : agree W1 W2.
Hypothesis decoder : forall body,
  ServicoA.json_Unmarshal (pkg W1) body = ServicoA.json_Unmarshal (pkg W2) body.

Lemma same_forwardRequestToServiceB r cep :
  same W1 W2 (ServicoA.forwardRequestToServiceB r cep)
             (ServicoA.forwardRequestToServiceB r cep).
Proof using answers.
  unfold ServicoA.forwardRequestToServiceB, tracer_Start, span_End, Body_Close.
  cbv zeta. same_go.
Qed.

Lemma same_handleCepRequest r :
  same W1 W2 (ServicoA.handleCepRequest r) (ServicoA.handleCepRequest r).
Proof using answers decoder.
  unfold ServicoA.handleCepRequest, tracer_Start, span_End, Body_Close, io_ReadAll.
  cbv zeta. destruct (negb (String.eqb (Method r) "POST")).
  { apply same_http_Error. }
  apply same_bind; [apply same_emit|intros _].
  apply same_defer; [apply same_emit|].
  apply same_bind; [same_go|intros [body|e]]; [|apply same_http_Error].
  apply same_defer; [apply same_emit|].
  apply same_ask_bind. rewrite decoder.
  destruct (ServicoA.json_Unmarshal (pkg W2) body) as [input|e];
    [|apply same_http_Error].
  destruct (negb (ServicoA.isValidCep (ServicoA.Cep input))).
  - same_go.
  - apply same_forwardRequestToServiceB.
Qed.
End same_handlers_A.

Section same_handlers_B.
Variables W1 W2 : World ServicoB.Pkg.
Hypothesis answers : agree W1 W2.
Hypothesis key :
  ServicoB.weatherApiKey (pkg W1) = ServicoB.weatherApiKey (pkg W2).
Hypothesis build : ServicoB.fused (pkg W1) = ServicoB.fused (pkg W2).
Hypothesis decode_local : forall body,
  ServicoB.Decode_Local (pkg W1) body = ServicoB.Decode_Local (pkg W2) body.
Hypothesis decode_clima : forall body,
  ServicoB.Decode_Clima (pkg W1) body = ServicoB.Decode_Clima (pkg W2) body.

Lemma same_SearchCep cep :
  same W1 W2 (ServicoB.SearchCep cep) (ServicoB.SearchCep cep).
Proof using answers decode_local.
  unfold ServicoB.SearchCep, tracer_Start, span_End, span_RecordError, Body_Close.
  cbv zeta.
  apply same_bind; [apply same_emit|intros _].
  apply same_defer; [apply same_emit|].
  apply same_bind; [same_go|intros [req|e]]; [|same_go].
  apply same_bind; [same_go|intros [resp|e]]; [|same_go].
  apply same_defer; [apply same_emit|].
  apply same_ask_bind. rewrite decode_local. same_go.
Qed.

Lemma same_GetWeather city :
  same W1 W2 (ServicoB.GetWeather city) (ServicoB.GetWeather city).
Proof using answers key decode_clima.
  unfold ServicoB.GetWeather, tracer_Start, span_End, span_RecordError, Body_Close.
  cbv zeta.
  apply same_bind; [apply same_emit|intros _].
  apply same_defer; [apply same_emit|].
  apply same_ask_bind. rewrite key.
  apply same_bind; [same_go|intros [req|e]]; [|same_go].
  apply same_bind; [same_go|intros [resp|e]]; [|same_go].
  apply same_defer; [apply same_emit|].
  destruct (negb (StatusCode resp =? 200)%Z); [same_go|].
  rewrite decode_clima. same_go.
Qed.

Lemma same_weatherHandler r :
  same W1 W2 (ServicoB.weatherHandler r) (ServicoB.weatherHandler r).
Proof using answers key build decode_local decode_clima.
  unfold ServicoB.weatherHandler, ServicoB.Encode, tracer_Start, span_End,
    span_SetAttributes.
  cbv zeta.
  apply same_bind; [apply same_emit|intros _].
  apply same_defer; [apply same_emit|].
  destruct (slice_from _ (Path r)) as [cep|]; [|apply same_panic].
  destruct (negb (ServicoB.isValidCep cep)); [apply same_http_Error|].
  apply same_bind; [apply same_emit|intros _].
  apply same_bind; [apply same_SearchCep|intros [local|e]].
  2:{ destruct (String.eqb _ _); apply same_http_Error. }
  apply same_bind; [apply same_emit|intros _].
  apply same_bind; [apply same_GetWeather|intros [clima|e]];
    [|apply same_http_Error].
  apply same_bind; [apply same_emit|intros _].
  apply same_ask_bind. rewrite build. same_go.
Qed.
End same_handlers_B.



(** * More of the two services *)

(** ** Service A, path by path *)

Lemma http_Error_fresh {G} (W : World G) msg code before :
  100 <= code <= 999 ->
  http_Error msg code W {| rw := new_recorder; trace := before |}
  = (Done tt, {| rw := error_response code msg; trace := before |}).
Proof.
  intros H. unfold http_Error, Header_Del, Header_Set, Write, WriteHeader. go.
  assert (R : (code <? 100)%Z || (999 <? code)%Z = false).
  { apply orb_false_iff. split; apply Z.ltb_ge; lia. }
  rewrite R. cbn. reflexivity.
Qed.

Arguments http_Error : simpl never.

Section forwardRequestToServiceB_paths.
Variable W : World ServicoA.Pkg.
Variable r : Request.
Variable cep : string.
Variable before : list event.

Local Abbreviation span := "forwardRequestToServiceB".
Local Abbreviation url := (ServicoA.targetURL (environ W "SERVICE_B_URL") cep).
Local Abbreviation req := {| ReqMethod := "GET"; ReqURL := url |}.
Local Abbreviation start := {| rw := new_recorder; trace := before |}.

Lemma forwardRequestToServiceB_unbuilt cause :
  url_Parse W url = Some cause ->
  ServicoA.forwardRequestToServiceB r cep W start
  = (Done tt,
     {| rw := error_response 500 "Failed to create request for service B";
        trace := (before ++ [EvSpanStart span; EvLookupEnv "SERVICE_B_URL";
                             EvNewRequest "GET" url; EvSpanEnd span])%list |}).
Proof.
  intros H1. unfold ServicoA.forwardRequestToServiceB. go. rewrite H1. cbn.
  rewrite http_Error_fresh by lia. cbn. now rewrite <- !app_assoc.
Qed.

Lemma forwardRequestToServiceB_unsent cause :
  url_Parse W url = None ->
  transport W req = inr cause ->
  ServicoA.forwardRequestToServiceB r cep W start
  = (Done tt,
     {| rw := error_response 500 "Failed to call service B";
        trace := (before ++ [EvSpanStart span; EvLookupEnv "SERVICE_B_URL";
                             EvNewRequest "GET" url; EvDo req;
                             EvSpanEnd span])%list |}).
Proof.
  intros H1 H2. unfold ServicoA.forwardRequestToServiceB. go.
  rewrite H1. cbn. rewrite H2. cbn.
  rewrite http_Error_fresh by lia. cbn. now rewrite <- !app_assoc.
Qed.

Lemma forwardRequestToServiceB_bad_status resp :
  url_Parse W url = None ->
  transport W req = inl resp ->
  StatusCode resp < 100 \/ 999 < StatusCode resp ->
  ServicoA.forwardRequestToServiceB r cep W start
  = (Panicked ("invalid WriteHeader code " ++ Itoa (StatusCode resp)),
     {| rw := {| rw_header := relayed_header resp; rw_sent := None;
                 rw_body := [] |};
        trace := (before ++ [EvSpanStart span; EvLookupEnv "SERVICE_B_URL";
                             EvNewRequest "GET" url; EvDo req; EvBodyClose;
                             EvSpanEnd span])%list |}).
Proof.
  intros H1 H2 H3. unfold ServicoA.forwardRequestToServiceB. go.
  rewrite H1. cbn. rewrite H2. cbn.
  unfold Header_Set, WriteHeader. go.
  assert (R : (StatusCode resp <? 100)%Z || (999 <? StatusCode resp)%Z = true).
  { apply orb_true_iff. destruct H3; [left|right]; apply Z.ltb_lt; lia. }
  rewrite R. cbn. unfold relayed_header. now rewrite <- !app_assoc.
Qed.
End forwardRequestToServiceB_paths.

Section handleCepRequest_paths.
Variable W : World ServicoA.Pkg.
Variable r : Request.

Local Abbreviation span := "handleCepRequest".
Local Abbreviation fspan := "forwardRequestToServiceB".

Lemma handleCepRequest_not_post :
  Method r <> "POST" ->
  ServicoA.handleCepRequest r W initial
  = (Done tt, {| rw := error_response 405 "Method not allowed"; trace := [] |}).
Proof.
  intros H. unfold ServicoA.handleCepRequest.
  destruct (String.eqb_spec (Method r) "POST") as [E|E]; [contradiction|].
  unfold initial. cbn. now rewrite http_Error_fresh by lia.
Qed.

Lemma handleCepRequest_unread e :
  Method r = "POST" ->
  ReqBody r = inr e ->
  ServicoA.handleCepRequest r W initial
  = (Done tt,
     {| rw := error_response 400 "Error reading request body";
        trace := [EvSpanStart span; EvReadAll; EvSpanEnd span] |}).
Proof.
  intros HM HB. unfold ServicoA.handleCepRequest. rewrite HM. go.
  rewrite HB. cbn. now rewrite http_Error_fresh by lia.
Qed.

Lemma handleCepRequest_undecoded body e :
  Method r = "POST" ->
  ReqBody r = inl body ->
  ServicoA.json_Unmarshal (pkg W) body = inr e ->
  ServicoA.handleCepRequest r W initial
  = (Done tt,
     {| rw := error_response 400 "Error decoding JSON";
        trace := [EvSpanStart span; EvReadAll; EvBodyClose; EvSpanEnd span] |}).
Proof.
  intros HM HB HJ. unfold ServicoA.handleCepRequest. rewrite HM. go.
  rewrite HB. cbn. rewrite HJ. cbn. now rewrite http_Error_fresh by lia.
Qed.

Lemma handleCepRequest_invalid body input :
  Method r = "POST" ->
  ReqBody r = inl body ->
  ServicoA.json_Unmarshal (pkg W) body = inl input ->
  ServicoA.isValidCep (ServicoA.Cep input) = false ->
  ServicoA.handleCepRequest r W initial
  = (Done tt,
     {| rw := {| rw_header := ∅; rw_sent := Some (422, ∅);
                 rw_body := [Raw "invalid zipcode"] |};
        trace := [EvSpanStart span; EvReadAll; EvBodyClose; EvSpanEnd span] |}).
Proof.
  intros HM HB HJ HV. unfold ServicoA.handleCepRequest. rewrite HM. go.
  rewrite HB. cbn. rewrite HJ, HV. reflexivity.
Qed.

(** A valid code: the handler is the forwarding between its own span and
    the closing of the body. *)
Lemma handleCepRequest_valid body input :
  Method r = "POST" ->
  ReqBody r = inl body ->
  ServicoA.json_Unmarshal (pkg W) body = inl input ->
  ServicoA.isValidCep (ServicoA.Cep input) = true ->
  ServicoA.handleCepRequest r W initial
  = (let (res, st) :=
       ServicoA.forwardRequestToServiceB r (ServicoA.Cep input) W
         {| rw := new_recorder; trace := [EvSpanStart span; EvReadAll] |} in
     (res, {| rw := rw st;
              trace := (trace st ++ [EvBodyClose; EvSpanEnd span])%list |})).
Proof.
  intros HM HB HJ HV. unfold ServicoA.handleCepRequest. rewrite HM. go.
  rewrite HB. cbn. rewrite HJ, HV. cbn.
  destruct (ServicoA.forwardRequestToServiceB _ _ _ _) as [res st]. cbn.
  now rewrite <- !app_assoc.
Qed.
End handleCepRequest_paths.

(** ** Service B, path by path *)

(** A path too short to hold the prefix has nothing from byte 9 on. *)
Lemma slice_from_short n s :
  slice_from n s = None <-> (String.length s < n)%nat.
Proof.
  revert s. induction n as [|n IH]; intros s; cbn.
  - split; [discriminate|lia].
  - destruct s as [|c t]; cbn.
    + split; [lia|reflexivity].
    + rewrite IH. lia.
Qed.

(** What slicing returns is what is left of the string. *)
Lemma slice_from_some n : forall s t,
  slice_from n s = Some t ->
  exists p, s = p ++ t /\ String.length p = n.
Proof.
  induction n as [|n IH]; intros s t H; cbn in H.
  - injection H as <-. now exists "".
  - destruct s as [|c s']; [discriminate|].
    destruct (IH _ _ H) as (p & -> & L).
    exists (String c p). split; [reflexivity|]. cbn. now rewrite L.
Qed.

(** The handler reads the request through [r.URL.Path[9:]] alone. *)
Lemma weatherHandler_reads_the_slice r r' W st :
  slice_from (String.length "/weather/") (Path r)
  = slice_from (String.length "/weather/") (Path r') ->
  ServicoB.weatherHandler r W st = ServicoB.weatherHandler r' W st.
Proof. intros H. unfold ServicoB.weatherHandler. now rewrite H. Qed.

Lemma weatherHandler_routed r cep W st :
  slice_from (String.length "/weather/") (Path r) = Some cep ->
  ServicoB.weatherHandler r W st
  = ServicoB.weatherHandler (get ("/weather/" ++ cep)) W st.
Proof.
  intros H. apply weatherHandler_reads_the_slice.
  rewrite H. symmetry. exact (slice_from_weather cep).
Qed.

Lemma weatherHandler_short W r :
  slice_from (String.length "/weather/") (Path r) = None ->
  ServicoB.weatherHandler r W initial
  = (Panicked "slice bounds out of range",
     {| rw := new_recorder;
        trace := [EvSpanStart "weatherHandler-orchestration";
                  EvSpanEnd "weatherHandler-orchestration"] |}).
Proof. intros H. unfold ServicoB.weatherHandler. rewrite H. reflexivity. Qed.

Lemma weatherHandler_invalid W r cep :
  slice_from (String.length "/weather/") (Path r) = Some cep ->
  ServicoB.isValidCep cep = false ->
  ServicoB.weatherHandler r W initial
  = (Done tt,
     {| rw := error_response 422 "invalid zipcode";
        trace := [EvSpanStart "weatherHandler-orchestration";
                  EvSpanEnd "weatherHandler-orchestration"] |}).
Proof.
  intros H HV. unfold ServicoB.weatherHandler. rewrite H. go. rewrite HV.
  unfold initial. cbn. now rewrite http_Error_fresh by lia.
Qed.

(** ** Every run of the two handlers

    The case analysis the handlers make, made once: each tactic leaves one
    goal for each path, with the run written out. *)

Ltac forward_paths W r cep before :=
  let cause := fresh "cause" in
  let resp := fresh "resp" in
  let E1 := fresh "Hparse" in
  let E2 := fresh "Hdo" in
  let E3 := fresh "Hcode" in
  destruct (url_Parse W (ServicoA.targetURL (environ W "SERVICE_B_URL") cep))
    as [cause|] eqn:E1;
  [ rewrite (forwardRequestToServiceB_unbuilt W r cep before cause E1)
  | destruct (transport W
                {| ReqMethod := "GET";
                   ReqURL := ServicoA.targetURL (environ W "SERVICE_B_URL") cep |})
      as [resp|cause] eqn:E2;
    [ destruct (Z_lt_dec (StatusCode resp) 100) as [E3|E3];
      [ rewrite (forwardRequestToServiceB_bad_status W r cep before resp E1 E2
                   (or_introl E3))
      | destruct (Z_lt_dec 999 (StatusCode resp)) as [E3'|E3'];
        [ rewrite (forwardRequestToServiceB_bad_status W r cep before resp E1 E2
                     (or_intror E3'))
        | rewrite (forwardRequestToServiceB_relays W r cep resp before E1 E2
                     ltac:(lia)) ] ]
    | rewrite (forwardRequestToServiceB_unsent W r cep before cause E1 E2) ] ].

Ltac handleCepRequest_paths W r :=
  let body := fresh "body" in
  let input := fresh "input" in
  let e := fresh "e" in
  let HM := fresh "Hmethod" in
  let HB := fresh "Hbody" in
  let HJ := fresh "Hjson" in
  let HV := fresh "Hvalid" in
  destruct (String.eqb_spec (Method r) "POST") as [HM|HM];
  [ destruct (ReqBody r) as [body|e] eqn:HB;
    [ destruct (ServicoA.json_Unmarshal (pkg W) body) as [input|e] eqn:HJ;
      [ destruct (ServicoA.isValidCep (ServicoA.Cep input)) eqn:HV;
        [ rewrite (handleCepRequest_valid W r body input HM HB HJ HV);
          forward_paths W r (ServicoA.Cep input)
            [EvSpanStart "handleCepRequest"; EvReadAll]
        | rewrite (handleCepRequest_invalid W r body input HM HB HJ HV) ]
      | rewrite (handleCepRequest_undecoded W r body e HM HB HJ) ]
    | rewrite (handleCepRequest_unread W r e HM HB) ]
  | rewrite (handleCepRequest_not_post W r HM) ].

Ltac SearchCep_paths W cep :=
  let cause := fresh "cause" in
  let resp := fresh "resp" in
  let local := fresh "local" in
  let msg := fresh "msg" in
  let E1 := fresh "Hparse" in
  let E2 := fresh "Hdo" in
  let E3 := fresh "Hdecode" in
  let E4 := fresh "Hflag" in
  destruct (url_Parse W (ServicoB.viacep_url cep)) as [cause|] eqn:E1;
  [ pose proof (SearchCep_rejected W cep cause E1)
  | destruct (transport W {| ReqMethod := "GET";
                             ReqURL := ServicoB.viacep_url cep |})
      as [resp|cause] eqn:E2;
    [ destruct (ServicoB.Decode_Local (pkg W) (Body resp))
        as [local|msg] eqn:E3;
      [ destruct (ServicoB.Erro local) eqn:E4;
        [ pose proof (SearchCep_flagged W cep resp local E1 E2 E3 E4)
        | pose proof (SearchCep_found W cep resp local E1 E2 E3 E4) ]
      | pose proof (SearchCep_undecodable W cep resp msg E1 E2 E3) ]
    | pose proof (SearchCep_unreachable W cep cause E1 E2) ] ].

Ltac GetWeather_paths W city :=
  let cause := fresh "cause" in
  let resp := fresh "resp" in
  let clima := fresh "clima" in
  let msg := fresh "msg" in
  let E1 := fresh "Hparse" in
  let E2 := fresh "Hdo" in
  let E3 := fresh "Hstatus" in
  let E4 := fresh "Hdecode" in
  destruct (url_Parse W
              (ServicoB.weather_url (ServicoB.weatherApiKey (pkg W)) city))
    as [cause|] eqn:E1;
  [ pose proof (GetWeather_rejected W city cause E1)
  | destruct (transport W
                {| ReqMethod := "GET";
                   ReqURL := ServicoB.weather_url
                               (ServicoB.weatherApiKey (pkg W)) city |})
      as [resp|cause] eqn:E2;
    [ destruct (Z.eq_dec (StatusCode resp) 200) as [E3|E3];
      [ destruct (ServicoB.Decode_Clima (pkg W) (Body resp))
          as [clima|msg] eqn:E4;
        [ pose proof (GetWeather_sample W city resp clima E1 E2 E3 E4)
        | pose proof (GetWeather_undecodable W city resp msg E1 E2 E3 E4) ]
      | pose proof (GetWeather_bad_status W city resp E1 E2 E3) ]
    | pose proof (GetWeather_unreachable W city cause E1 E2) ] ].

Ltac weatherHandler_paths W r :=
  let cep := fresh "cep" in
  let HS := fresh "Hslice" in
  let HV := fresh "Hvalid" in
  destruct (slice_from (String.length "/weather/") (Path r)) as [cep|] eqn:HS;
  [ destruct (ServicoB.isValidCep cep) eqn:HV;
    [ rewrite (weatherHandler_routed r cep W initial HS);
      SearchCep_paths W cep;
      match goal with
      | H : logs W (ServicoB.SearchCep cep) (Done (inr _)) _ |- _ =>
          rewrite (weatherHandler_lookup_failed W (get ("/weather/" ++ cep)) cep eq_refl HV _ _ H)
      | H : logs W (ServicoB.SearchCep cep) (Done (inl ?local)) _ |- _ =>
          GetWeather_paths W (ServicoB.Localidade local);
          match goal with
          | H' : logs W (ServicoB.GetWeather _) (Done (inr _)) _ |- _ =>
              rewrite (weatherHandler_weather_failed W (get ("/weather/" ++ cep)) cep eq_refl HV
                         _ _ _ _ H H')
          | H' : logs W (ServicoB.GetWeather _) (Done (inl _)) _ |- _ =>
              rewrite (weatherHandler_answered W (get ("/weather/" ++ cep)) cep eq_refl HV _ _ _ _ H H')
          end
      end
    | rewrite (weatherHandler_invalid W r cep HS HV) ]
  | rewrite (weatherHandler_short W r HS) ].

(** ** Spans *)

(** X1.  On every path of both handlers, the panics included, each span
    that was started is ended, the inner one before the outer one: the
    deferred [span.End] calls run whatever happens, and the handler leaves
    no span open. *)
Theorem spans_well_bracketed :
  (forall (W : World ServicoA.Pkg) (r : Request),
     well_bracketed (trace (snd (ServicoA.handleCepRequest r W initial)))) /\
  (forall (W : World ServicoB.Pkg) (r : Request),
     well_bracketed (trace (snd (ServicoB.weatherHandler r W initial)))).
Proof.
  split; intros W r; unfold well_bracketed.
  - handleCepRequest_paths W r; reflexivity.
  - weatherHandler_paths W r; reflexivity.
Qed.

(** ** Service A: the requests it turns down and the calls that fail *)

(** X2.  A POST whose body cannot be read, or whose bytes [json.Unmarshal]
    rejects, is answered 400 with a fixed plain-text message (the message
    of [http.Error], a newline after it) that says nothing of the cause;
    nothing is sent downstream.  The request body is closed only when it
    was read: the [defer r.Body.Close()] comes after the read. *)
Theorem handleCepRequest_bad_request :
  (forall (W : World ServicoA.Pkg) (r : Request) (e : error),
     Method r = "POST" ->
     ReqBody r = inr e ->
     ServicoA.handleCepRequest r W initial
     = (Done tt,
        {| rw := error_response 400 "Error reading request body";
           trace := [EvSpanStart "handleCepRequest"; EvReadAll;
                     EvSpanEnd "handleCepRequest"] |})) /\
  (forall (W : World ServicoA.Pkg) (r : Request) (body : string) (e : error),
     Method r = "POST" ->
     ReqBody r = inl body ->
     ServicoA.json_Unmarshal (pkg W) body = inr e ->
     ServicoA.handleCepRequest r W initial
     = (Done tt,
        {| rw := error_response 400 "Error decoding JSON";
           trace := [EvSpanStart "handleCepRequest"; EvReadAll;
                     EvBodyClose; EvSpanEnd "handleCepRequest"] |})).
Proof.
  split; intros.
  - eapply handleCepRequest_unread; eassumption.
  - eapply handleCepRequest_undecoded; eassumption.
Qed.

Lemma handleCepRequest_bad_request_witness :
  ServicoA.handleCepRequest broken_post (world_A (inr "down")) initial
  = (Done tt,
     {| rw := error_response 400 "Error reading request body";
        trace := [EvSpanStart "handleCepRequest"; EvReadAll;
                  EvSpanEnd "handleCepRequest"] |}) /\
  ServicoA.handleCepRequest (post_bytes "cep=01001000") (world_A (inr "down"))
    initial
  = (Done tt,
     {| rw := error_response 400 "Error decoding JSON";
        trace := [EvSpanStart "handleCepRequest"; EvReadAll;
                  EvBodyClose; EvSpanEnd "handleCepRequest"] |}).
Proof.
  split.
  - apply (proj1 handleCepRequest_bad_request (world_A (inr "down"))
             broken_post (ReadError "unexpected EOF")); reflexivity.
  - apply (proj2 handleCepRequest_bad_request (world_A (inr "down"))
             (post_bytes "cep=01001000") "cep=01001000"
             (DecodeError "invalid character looking for beginning of value"));
      reflexivity.
Defined.

(** X3.  For a valid code, when the request to Service B cannot be built
    (the URL made of SERVICE_B_URL and the code does not parse) the answer
    is 500 [Failed to create request for service B] and no round trip is
    made; when the round trip fails it is 500 [Failed to call service B],
    after one attempt.  The cause is in neither body, and both spans are
    ended and the request body is closed. *)
Theorem handleCepRequest_downstream_failure :
  forall (W : World ServicoA.Pkg) (r : Request) (body : string)
         (input : ServicoA.CepInput),
  let url := ServicoA.targetURL (environ W "SERVICE_B_URL") (ServicoA.Cep input) in
  let req := {| ReqMethod := "GET"; ReqURL := url |} in
  Method r = "POST" ->
  ReqBody r = inl body ->
  ServicoA.json_Unmarshal (pkg W) body = inl input ->
  ServicoA.isValidCep (ServicoA.Cep input) = true ->
  (forall cause, url_Parse W url = Some cause ->
     ServicoA.handleCepRequest r W initial
     = (Done tt,
        {| rw := error_response 500 "Failed to create request for service B";
           trace := [EvSpanStart "handleCepRequest"; EvReadAll;
                     EvSpanStart "forwardRequestToServiceB";
                     EvLookupEnv "SERVICE_B_URL"; EvNewRequest "GET" url;
                     EvSpanEnd "forwardRequestToServiceB";
                     EvBodyClose; EvSpanEnd "handleCepRequest"] |})) /\
  (forall cause, url_Parse W url = None -> transport W req = inr cause ->
     ServicoA.handleCepRequest r W initial
     = (Done tt,
        {| rw := error_response 500 "Failed to call service B";
           trace := [EvSpanStart "handleCepRequest"; EvReadAll;
                     EvSpanStart "forwardRequestToServiceB";
                     EvLookupEnv "SERVICE_B_URL"; EvNewRequest "GET" url;
                     EvDo req;
                     EvSpanEnd "forwardRequestToServiceB";
                     EvBodyClose; EvSpanEnd "handleCepRequest"] |})).
Proof.
  intros W r body input url req HM HB HJ HV. subst url req.
  split; intros cause H1.
  - rewrite (handleCepRequest_valid W r body input HM HB HJ HV).
    rewrite (forwardRequestToServiceB_unbuilt W r _ _ cause H1). reflexivity.
  - intros H2.
    rewrite (handleCepRequest_valid W r body input HM HB HJ HV).
    rewrite (forwardRequestToServiceB_unsent W r _ _ cause H1 H2). reflexivity.
Qed.

Lemma handleCepRequest_downstream_failure_witness :
  ServicoA.handleCepRequest (post "01001000")
    (world_A_at ("http://b" ++ tab) (inr "down")) initial
  = (Done tt,
     {| rw := error_response 500 "Failed to create request for service B";
        trace := [EvSpanStart "handleCepRequest"; EvReadAll;
                  EvSpanStart "forwardRequestToServiceB";
                  EvLookupEnv "SERVICE_B_URL";
                  EvNewRequest "GET" ("http://b" ++ tab ++ "/weather/01001000");
                  EvSpanEnd "forwardRequestToServiceB";
                  EvBodyClose; EvSpanEnd "handleCepRequest"] |}) /\
  ServicoA.handleCepRequest (post "01001000")
    (world_A (inr "dial tcp: connection refused")) initial
  = (Done tt,
     {| rw := error_response 500 "Failed to call service B";
        trace := [EvSpanStart "handleCepRequest"; EvReadAll;
                  EvSpanStart "forwardRequestToServiceB";
                  EvLookupEnv "SERVICE_B_URL";
                  EvNewRequest "GET" "http://service-b:8081/weather/01001000";
                  EvDo {| ReqMethod := "GET";
                          ReqURL := "http://service-b:8081/weather/01001000" |};
                  EvSpanEnd "forwardRequestToServiceB";
                  EvBodyClose; EvSpanEnd "handleCepRequest"] |}).
Proof.
  split.
  - apply (proj1 (handleCepRequest_downstream_failure
                    (world_A_at ("http://b" ++ tab) (inr "down"))
                    (post "01001000") (cep_document "01001000")
                    {| ServicoA.Cep := "01001000" |}
                    eq_refl eq_refl eq_refl eq_refl)
             "net/url: invalid control character in URL").
    reflexivity.
  - apply (proj2 (handleCepRequest_downstream_failure
                    (world_A (inr "dial tcp: connection refused"))
                    (post "01001000") (cep_document "01001000")
                    {| ServicoA.Cep := "01001000" |}
                    eq_refl eq_refl eq_refl eq_refl)
             "dial tcp: connection refused");
      reflexivity.
Defined.

(** X4.  A downstream response whose status code is below 100 or above 999
    makes the forwarding panic in [WriteHeader]: the Content-Type is already
    in the header map, but no status line and no byte of the body is
    written.  The deferred calls still run: the response body and the
    request body are closed and both spans are ended. *)
Theorem handleCepRequest_panics_on_bad_status :
  forall (W : World ServicoA.Pkg) (r : Request) (body : string)
         (input : ServicoA.CepInput) (resp : Response),
  let url := ServicoA.targetURL (environ W "SERVICE_B_URL") (ServicoA.Cep input) in
  let req := {| ReqMethod := "GET"; ReqURL := url |} in
  Method r = "POST" ->
  ReqBody r = inl body ->
  ServicoA.json_Unmarshal (pkg W) body = inl input ->
  ServicoA.isValidCep (ServicoA.Cep input) = true ->
  url_Parse W url = None ->
  transport W req = inl resp ->
  StatusCode resp < 100 \/ 999 < StatusCode resp ->
  ServicoA.handleCepRequest r W initial
  = (Panicked ("invalid WriteHeader code " ++ Itoa (StatusCode resp)),
     {| rw := {| rw_header := relayed_header resp; rw_sent := None;
                 rw_body := [] |};
        trace := [EvSpanStart "handleCepRequest"; EvReadAll;
                  EvSpanStart "forwardRequestToServiceB";
                  EvLookupEnv "SERVICE_B_URL"; EvNewRequest "GET" url;
                  EvDo req; EvBodyClose;
                  EvSpanEnd "forwardRequestToServiceB";
                  EvBodyClose; EvSpanEnd "handleCepRequest"] |}).
Proof.
  intros W r body input resp url req HM HB HJ HV H1 H2 H3. subst url req.
  rewrite (handleCepRequest_valid W r body input HM HB HJ HV).
  rewrite (forwardRequestToServiceB_bad_status W r _ _ resp H1 H2 H3).
  reflexivity.
Qed.

Lemma handleCepRequest_panics_on_bad_status_witness :
  ServicoA.handleCepRequest (post "01001000")
    (world_A (inl {| StatusCode := 42; Header := json_header;
                     Body := [Raw "{}"] |})) initial
  = (Panicked "invalid WriteHeader code 42",
     {| rw := {| rw_header := json_header; rw_sent := None; rw_body := [] |};
        trace := [EvSpanStart "handleCepRequest"; EvReadAll;
                  EvSpanStart "forwardRequestToServiceB";
                  EvLookupEnv "SERVICE_B_URL";
                  EvNewRequest "GET" "http://service-b:8081/weather/01001000";
                  EvDo {| ReqMethod := "GET";
                          ReqURL := "http://service-b:8081/weather/01001000" |};
                  EvBodyClose;
                  EvSpanEnd "forwardRequestToServiceB";
                  EvBodyClose; EvSpanEnd "handleCepRequest"] |}).
Proof.
  apply (handleCepRequest_panics_on_bad_status
           (world_A (inl {| StatusCode := 42; Header := json_header;
                            Body := [Raw "{}"] |}))
           (post "01001000") (cep_document "01001000")
           {| ServicoA.Cep := "01001000" |}
           {| StatusCode := 42; Header := json_header; Body := [Raw "{}"] |}
           eq_refl eq_refl eq_refl eq_refl eq_refl eq_refl).
  left. reflexivity.
Defined.

(** ** Service A: all it ever answers, all it ever sends *)



(** ** Service B: what it reads of the request *)

Lemma slice_from_app p : forall s, slice_from (String.length p) (p ++ s) = Some s.
Proof. induction p as [|c p IH]; intros s; [reflexivity|exact (IH s)]. Qed.

(** X7.  Service B's handler takes the code by position, [r.URL.Path[9:]]:
    it does not look at the first nine bytes of the path, at the method or
    at the body, so two requests whose paths agree from byte 9 on are
    handled alike.  Called with a path of fewer than nine bytes it panics
    (slice bounds out of range) with nothing written, its span ended. *)
Theorem weatherHandler_reads_path_from_byte_9 :
  (forall (W : World ServicoB.Pkg) (st : State) (p p' cep m m' : string)
          (b b' : string + error),
     String.length p = 9%nat ->
     String.length p' = 9%nat ->
     ServicoB.weatherHandler {| Method := m; Path := p ++ cep; ReqBody := b |}
       W st
     = ServicoB.weatherHandler
         {| Method := m'; Path := p' ++ cep; ReqBody := b' |} W st) /\
  (forall (W : World ServicoB.Pkg) (r : Request),
     (String.length (Path r) < 9)%nat ->
     ServicoB.weatherHandler r W initial
     = (Panicked "slice bounds out of range",
        {| rw := new_recorder;
           trace := [EvSpanStart "weatherHandler-orchestration";
                     EvSpanEnd "weatherHandler-orchestration"] |})).
Proof.
  split.
  - intros W st p p' cep m m' b b' L L'.
    apply weatherHandler_reads_the_slice. cbn [Path].
    change (String.length "/weather/") with 9%nat.
    rewrite <- L at 1. rewrite <- L'. now rewrite !slice_from_app.
  - intros W r L. apply weatherHandler_short.
    now apply slice_from_short.
Qed.

Lemma weatherHandler_reads_path_from_byte_9_witness :
  ServicoB.weatherHandler
    {| Method := "GET"; Path := "/weather/" ++ "01001000"; ReqBody := inl "" |}
    world_sao_paulo_21 initial
  = ServicoB.weatherHandler
      {| Method := "DELETE"; Path := "/forecast" ++ "01001000";
         ReqBody := inr (ReadError "unexpected EOF") |}
      world_sao_paulo_21 initial /\
  ServicoB.weatherHandler (get "/weather") world_sao_paulo_21 initial
  = (Panicked "slice bounds out of range",
     {| rw := new_recorder;
        trace := [EvSpanStart "weatherHandler-orchestration";
                  EvSpanEnd "weatherHandler-orchestration"] |}).
Proof.
  split.
  - apply (proj1 weatherHandler_reads_path_from_byte_9 world_sao_paulo_21
             initial "/weather/" "/forecast" "01001000" "GET" "DELETE"
             (inl "") (inr (ReadError "unexpected EOF"))); reflexivity.
  - apply (proj2 weatherHandler_reads_path_from_byte_9 world_sao_paulo_21
             (get "/weather")).
    cbn. lia.
Defined.

(** ** Service B: all it ever answers, all it ever sends *)

Lemma Marshal_document t doc :
  ServicoB.Marshal t = Some doc ->
  doc = [("city", JString (ServicoB.City t));
         ("temp_C", JNumber (ServicoB.TempC t));
         ("temp_F", JNumber (ServicoB.TempF t));
         ("temp_K", JNumber (ServicoB.TempK t))] /\
  is_finite (ServicoB.TempC t) = true /\
  is_finite (ServicoB.TempF t) = true /\
  is_finite (ServicoB.TempK t) = true.
Proof.
  unfold ServicoB.Marshal.
  destruct (is_finite (ServicoB.TempC t)), (is_finite (ServicoB.TempF t)),
    (is_finite (ServicoB.TempK t)); cbn; intros [= <-]; auto.
Qed.

(** X8.  Whatever the request and the world, a run of Service B's handler
    ends in one of three ways.  It panics, with nothing written, exactly
    on a path shorter than nine bytes.  It answers 200 with Content-Type
    application/json and a body that is one JSON document with the members
    city, temp_C, temp_F, temp_K in that order and finite numbers, or is
    empty.  Or it answers 404, 422 or 500 as [http.Error] does: plain text,
    nosniff, a message and a newline.  No other status is ever written. *)
Theorem weatherHandler_outcomes :
  forall (W : World ServicoB.Pkg) (r : Request),
  let run := ServicoB.weatherHandler r W initial in
  ((String.length (Path r) < 9)%nat /\
   fst run = Panicked "slice bounds out of range" /\
   rw (snd run) = new_recorder) \/
  ((9 <= String.length (Path r))%nat /\
   fst run = Done tt /\
   ((rw_header (rw (snd run)) = json_header /\
     rw_sent (rw (snd run)) = Some (200, json_header) /\
     (rw_body (rw (snd run)) = [] \/
      exists city c f k,
        rw_body (rw (snd run))
        = [Encoded [("city", JString city); ("temp_C", JNumber c);
                    ("temp_F", JNumber f); ("temp_K", JNumber k)]] /\
        is_finite c = true /\ is_finite f = true /\ is_finite k = true)) \/
    (exists code msg,
       In code [404; 422; 500] /\
       rw (snd run) = error_response code msg))).
Proof.
  intros W r run. subst run.
  assert (L : forall cep,
             slice_from (String.length "/weather/") (Path r) = Some cep ->
             (9 <= String.length (Path r))%nat).
  { intros cep H. destruct (Nat.lt_ge_cases (String.length (Path r)) 9) as [C|C];
      [|exact C].
    apply slice_from_short in C.
    change (slice_from 9 (Path r) = Some cep) in H. congruence. }
  weatherHandler_paths W r; cbn [fst snd rw trace];
    [right; split; [eauto|]; split; [reflexivity|].. | ];
    try (right; eexists _, _; (split; [|reflexivity]); in_list; fail);
    try (right; destruct (String.eqb _ "can not find zipcode");
         eexists _, _; (split; [|reflexivity]); in_list; fail).
  - left. cbn. repeat split.
    destruct (ServicoB.Marshal _) as [doc|] eqn:E; [right|left; reflexivity].
    destruct (Marshal_document _ _ E) as (-> & F1 & F2 & F3).
    eexists _, _, _, _. split; [reflexivity|]. auto.
  - left. split; [now apply slice_from_short|]. split; reflexivity.
Qed.


(** ** Service B: a temperature that cannot be written *)

(** X10.  When both resolvers succeed but the Fahrenheit value is not
    finite (the product overflows for a reading near the top of the
    float64 range, which a JSON number such as 1e308 decodes to), the
    encoder refuses the value and the handler drops its error: the answer
    is 200 with Content-Type application/json and an empty body. *)
Theorem weatherHandler_unencodable :
  forall (W : World ServicoB.Pkg) (r : Request) (cep : string)
         (found : Response) (local : ServicoB.Local)
         (sampled : Response) (clima : ServicoB.Clima),
  let lookup := {| ReqMethod := "GET"; ReqURL := ServicoB.viacep_url cep |} in
  let query := {| ReqMethod := "GET";
                  ReqURL := ServicoB.weather_url
                              (ServicoB.weatherApiKey (pkg W))
                              (ServicoB.Localidade local) |} in
  slice_from 9 (Path r) = Some cep ->
  ServicoB.isValidCep cep = true ->
  url_Parse W (ReqURL lookup) = None ->
  transport W lookup = inl found ->
  ServicoB.Decode_Local (pkg W) (Body found) = inl local ->
  ServicoB.Erro local = false ->
  url_Parse W (ReqURL query) = None ->
  transport W query = inl sampled ->
  StatusCode sampled = 200 ->
  ServicoB.Decode_Clima (pkg W) (Body sampled) = inl clima ->
  is_finite (ServicoB.TempF
               (ServicoB.response (ServicoB.fused (pkg W)) local clima))
  = false ->
  fst (ServicoB.weatherHandler r W initial) = Done tt /\
  rw (snd (ServicoB.weatherHandler r W initial))
  = {| rw_header := json_header;
       rw_sent := Some (200, json_header);
       rw_body := [] |}.
Proof.
  intros W r cep found local sampled clima lookup query
    HS HV P1 T1 D1 F1 P2 T2 S2 D2 HF.
  subst lookup query. cbn [ReqURL] in *.
  rewrite (weatherHandler_routed r cep W initial HS).
  rewrite (weatherHandler_answered W (get ("/weather/" ++ cep)) cep eq_refl HV
             local clima _ _
             (SearchCep_found W cep found local P1 T1 D1 F1)
             (GetWeather_sample W _ sampled clima P2 T2 S2 D2)).
  cbn [fst snd rw]. split; [reflexivity|].
  unfold ServicoB.Marshal. rewrite HF.
  now rewrite andb_false_r.
Qed.

Lemma weatherHandler_unencodable_witness :
  fst (ServicoB.weatherHandler (get "/weather/01001000")
         (world_B "key" ctl_check 200 (inl sao_paulo) 200
            (inl {| ServicoB.Current_TempC := 1e308 |})) initial) = Done tt /\
  rw (snd (ServicoB.weatherHandler (get "/weather/01001000")
             (world_B "key" ctl_check 200 (inl sao_paulo) 200
                (inl {| ServicoB.Current_TempC := 1e308 |})) initial))
  = {| rw_header := json_header;
       rw_sent := Some (200, json_header);
       rw_body := [] |}.
Proof.
  apply (weatherHandler_unencodable
           (world_B "key" ctl_check 200 (inl sao_paulo) 200
              (inl {| ServicoB.Current_TempC := 1e308 |}))
           (get "/weather/01001000") "01001000"
           {| StatusCode := 200; Header := ∅;
              Body := [Raw "https://viacep.com.br/ws/01001000/json/"] |}
           sao_paulo
           {| StatusCode := 200; Header := ∅;
              Body := [Raw ("https://api.weatherapi.com/v1/current.json?key=key"
                            ++ "&q=S%C3%A3o+Paulo&aqi=no")] |}
           {| ServicoB.Current_TempC := 1e308 |});
    reflexivity.
Defined.

(** ** Errors on spans *)

(** X11.  The two resolvers always return, never touch the response writer
    and record on their span exactly the error they return, with one
    exception: [SearchCep] does not record the not-found error it makes
    itself at main.go:208.  [GetWeather] records every error it returns. *)
Theorem resolvers_record_their_errors :
  (forall (W : World ServicoB.Pkg) (cep : string) (st : State),
     exists res evs,
       ServicoB.SearchCep cep W st
       = (Done res, {| rw := rw st; trace := (trace st ++ evs)%list |}) /\
       ((exists local, res = inl local /\ recorded_errors evs = []) \/
        (res = inr (Errorf "can not find zipcode") /\
         recorded_errors evs = []) \/
        (exists e, res = inr e /\ e <> Errorf "can not find zipcode" /\
                   recorded_errors evs = [e]))) /\
  (forall (W : World ServicoB.Pkg) (city : string) (st : State),
     exists res evs,
       ServicoB.GetWeather city W st
       = (Done res, {| rw := rw st; trace := (trace st ++ evs)%list |}) /\
       ((exists clima, res = inl clima /\ recorded_errors evs = []) \/
        (exists e, res = inr e /\ recorded_errors evs = [e]))).
Proof.
  split.
  - intros W cep st. SearchCep_paths W cep;
      match goal with
      | H : logs _ _ (Done ?res) ?evs |- _ =>
          exists res, evs; split; [apply (H st)|]
      end.
    + right. right. eexists. repeat split. discriminate.
    + right. left. split; reflexivity.
    + left. eexists. split; reflexivity.
    + right. right. eexists. repeat split. discriminate.
    + right. right. eexists. repeat split. discriminate.
  - intros W city st. GetWeather_paths W city;
      match goal with
      | H : logs _ _ (Done ?res) ?evs |- _ =>
          exists res, evs; split; [apply (H st)|]
      end;
      first [ left; eexists; split; reflexivity
            | right; eexists; split; reflexivity ].
Qed.

(** X12.  Service A never records an error on a span, whatever it answers.
    In Service B at most one error is recorded per request, and when one is,
    the response is the 500 (or, for a decoder message that reads like the
    not-found one, the 404) whose body is that error's message; a response
    with status 200 or 422 comes with no recorded error. *)
Theorem handlers_recorded_errors :
  (forall (W : World ServicoA.Pkg) (r : Request),
     recorded_errors (trace (snd (ServicoA.handleCepRequest r W initial))) = []) /\
  (forall (W : World ServicoB.Pkg) (r : Request),
     let run := ServicoB.weatherHandler r W initial in
     recorded_errors (trace (snd run)) = [] \/
     exists e,
       recorded_errors (trace (snd run)) = [e] /\
       (rw (snd run) = error_response 500 (Error e) \/
        rw (snd run) = error_response 404 (Error e))).
Proof.
  split.
  - intros W r. handleCepRequest_paths W r; reflexivity.
  - intros W r run. subst run.
    weatherHandler_paths W r; cbn [fst snd rw trace];
      try (left; reflexivity);
      right; eexists; (split; [reflexivity|]);
      try (left; reflexivity);
      destruct (String.eqb _ "can not find zipcode"); auto.
Qed.

(** ** Bodies *)

(** X13.  Every body that was opened is closed, once, on every path, and
    nothing else is: Service B closes as many bodies as its round trips
    brought responses; Service A closes those and the body of the request
    when it was read. *)
Theorem bodies_closed :
  (forall (W : World ServicoA.Pkg) (r : Request),
     let t := trace (snd (ServicoA.handleCepRequest r W initial)) in
     closes t
     = (answered W t
        + match ReqBody r with
          | inl _ => if String.eqb (Method r) "POST" then 1 else 0
          | inr _ => 0
          end)%nat) /\
  (forall (W : World ServicoB.Pkg) (r : Request),
     let t := trace (snd (ServicoB.weatherHandler r W initial)) in
     closes t = answered W t).
Proof.
  split.
  - intros W r t. subst t.
    handleCepRequest_paths W r; cbn [fst snd rw trace];
      cbn [closes answered app];
      repeat match goal with
             | H : transport _ _ = _ |- _ => rewrite H
             | H : Method r = _ |- _ => rewrite H
             end;
      try reflexivity.
    destruct (ReqBody r); destruct (String.eqb_spec (Method r) "POST");
      try reflexivity; contradiction.
  - intros W r t. subst t.
    weatherHandler_paths W r; cbn [fst snd rw trace];
      cbn [closes answered app];
      repeat match goal with
             | H : transport _ _ = _ |- _ => rewrite H
             end;
      reflexivity.
Qed.

(** ** The query string of the weather request *)

Lemma append_cons c (a b : string) : String c a ++ b = String c (a ++ b).
Proof. reflexivity. Qed.

Lemma append_nil (a : string) : "" ++ a = a.
Proof. reflexivity. Qed.

Lemma append_assoc (a b c : string) : (a ++ b) ++ c = a ++ (b ++ c).
Proof.
  induction a as [|x a IH]; [reflexivity|].
  rewrite !append_cons. now rewrite IH.
Qed.

Lemma list_ascii_of_string_app (a b : string) :
  list_ascii_of_string (a ++ b)
  = (list_ascii_of_string a ++ list_ascii_of_string b)%list.
Proof.
  induction a as [|x a IH]; [reflexivity|].
  rewrite append_cons. cbn. now rewrite IH.
Qed.

Lemma append_inv_tail (a b s : string) : a ++ s = b ++ s -> a = b.
Proof.
  intros H. apply (f_equal list_ascii_of_string) in H.
  rewrite !list_ascii_of_string_app in H. apply app_inv_tail in H.
  rewrite <- (string_of_list_ascii_of_string a),
          <- (string_of_list_ascii_of_string b).
  now rewrite H.
Qed.

Lemma all_bytes_app p (a b : string) :
  all_bytes p (a ++ b) = all_bytes p a && all_bytes p b.
Proof.
  induction a as [|x a IH]; [reflexivity|].
  rewrite append_cons. cbn. now rewrite IH, andb_assoc.
Qed.

Lemma all_bytes_weaken (p q : ascii -> bool) :
  (forall c, p c = true -> q c = true) ->
  forall s, all_bytes p s = true -> all_bytes q s = true.
Proof.
  intros H s. induction s as [|c s IH]; [reflexivity|]. cbn.
  rewrite !andb_true_iff. intros [H1 H2]. auto.
Qed.

(** What [QueryEscape] writes for one byte. *)
Lemma QueryEscape_cons c t :
  QueryEscape (String c t)
  = (if is_alnum c || Ascii.eqb c "-" || Ascii.eqb c "_"
        || Ascii.eqb c "." || Ascii.eqb c "~"
     then String c EmptyString
     else if Ascii.eqb c " " then "+"
     else String "%" (hex_byte true c)) ++ QueryEscape t.
Proof. reflexivity. Qed.

Ltac every_byte c := destruct c as [[] [] [] [] [] [] [] []].

Lemma QueryEscape_byte_safe c :
  all_bytes is_query_safe
    (if is_alnum c || Ascii.eqb c "-" || Ascii.eqb c "_"
        || Ascii.eqb c "." || Ascii.eqb c "~"
     then String c EmptyString
     else if Ascii.eqb c " " then "+"
     else String "%" (hex_byte true c)) = true.
Proof. every_byte c; vm_compute; reflexivity. Qed.

Lemma QueryEscape_safe s : all_bytes is_query_safe (QueryEscape s) = true.
Proof.
  induction s as [|c s IH]; [reflexivity|].
  rewrite QueryEscape_cons, all_bytes_app, IH, QueryEscape_byte_safe.
  reflexivity.
Qed.

Lemma unescape_byte c rest :
  unescape
    ((if is_alnum c || Ascii.eqb c "-" || Ascii.eqb c "_"
         || Ascii.eqb c "." || Ascii.eqb c "~"
      then String c EmptyString
      else if Ascii.eqb c " " then "+"
      else String "%" (hex_byte true c)) ++ rest)
  = String c (unescape rest).
Proof. every_byte c; reflexivity. Qed.

Lemma unescape_QueryEscape s : unescape (QueryEscape s) = s.
Proof.
  induction s as [|c s IH]; [reflexivity|].
  now rewrite QueryEscape_cons, unescape_byte, IH.
Qed.

Lemma query_safe_plain c : is_query_safe c = true -> is_plain c = true.
Proof. every_byte c; vm_compute; intros; congruence. Qed.

Lemma quote_body_plain s : all_bytes is_plain s = true -> quote_body s = s.
Proof.
  induction s as [|c s IH]; [reflexivity|]. cbn [all_bytes].
  rewrite andb_true_iff. intros [H1 H2].
  change (quote_body (String c s))
    with ((let n := nat_of_ascii c in
           if (n =? 34)%nat then String "\" (String c EmptyString)
           else if (n =? 92)%nat then String "\" (String c EmptyString)
           else if (n =? 7)%nat then "\a" else if (n =? 8)%nat then "\b"
           else if (n =? 12)%nat then "\f" else if (n =? 10)%nat then "\n"
           else if (n =? 13)%nat then "\r" else if (n =? 9)%nat then "\t"
           else if (n =? 11)%nat then "\v"
           else if ((n <? 32) || (n =? 127))%nat then "\x" ++ hex_byte false c
           else String c EmptyString) ++ quote_body s).
  rewrite (IH H2). clear IH H2. revert H1.
  every_byte c; vm_compute; intros; congruence.
Qed.

(** X14.  The locality goes into the weather URL escaped: its escaped form
    holds only letters, digits and the bytes [-_.~+%], so a locality cannot
    end the [q] parameter, add another one or break the URL; and the
    escaping loses nothing: two different localities give two different
    URLs. *)
Theorem weather_url_escapes_the_city :
  forall (key city : string),
  all_bytes is_query_safe (QueryEscape city) = true /\
  (forall city', city <> city' ->
                 ServicoB.weather_url key city <> ServicoB.weather_url key city').
Proof.
  intros key city. split; [apply QueryEscape_safe|].
  intros city' N H. apply N. unfold ServicoB.weather_url in H.
  apply String.app_inj in H. apply String.app_inj in H.
  apply String.app_inj in H. apply append_inv_tail in H.
  rewrite <- (unescape_QueryEscape city), <- (unescape_QueryEscape city').
  now rewrite H.
Qed.

Lemma weather_url_escapes_the_city_witness :
  all_bytes is_query_safe (QueryEscape "São Paulo") = true /\
  ServicoB.weather_url "key" "São Paulo"
  <> ServicoB.weather_url "key" "Sao Paulo".
Proof.
  destruct (weather_url_escapes_the_city "key" "São Paulo") as (H1 & H2).
  split; [exact H1|].
  apply (H2 "Sao Paulo"). discriminate.
Defined.

(** ** Service B: what a failed weather request says *)

Lemma weather_url_plain key city :
  all_bytes is_plain key = true ->
  all_bytes is_plain (ServicoB.weather_url key city) = true.
Proof.
  intros H. unfold ServicoB.weather_url.
  rewrite !all_bytes_app, H.
  rewrite (all_bytes_weaken _ _ query_safe_plain _ (QueryEscape_safe city)).
  reflexivity.
Qed.



(** ** The two validators *)

(** X16.  Service B answers 422 for a path whose bytes from the ninth on
    fail the validation, and in no other case.  The two services validate
    with the same pattern, so a code that Service A forwards, requested at
    [/weather/] followed by the code, is never turned down as invalid by
    Service B: the handler returns with 200, 404 or 500. *)
Theorem weatherHandler_422_only_for_invalid :
  (forall (W : World ServicoB.Pkg) (r : Request),
     status_of (rw (snd (ServicoB.weatherHandler r W initial))) = Some 422
     <-> exists cep, slice_from 9 (Path r) = Some cep /\
                     ServicoB.isValidCep cep = false) /\
  (forall (W : World ServicoB.Pkg) (cep : string),
     ServicoA.isValidCep cep = true ->
     let run := ServicoB.weatherHandler (get ("/weather/" ++ cep)) W initial in
     fst run = Done tt /\
     exists code, status_of (rw (snd run)) = Some code /\ In code [200; 404; 500]).
Proof.
  split.
  - intros W r.
    weatherHandler_paths W r; cbn [fst snd rw trace];
      change (String.length "/weather/") with 9%nat in *;
      (split; [intros H422|intros (cep' & E & V)]);
      try (exists cep; split; assumption);
      try reflexivity;
      try (try destruct (String.eqb _ "can not find zipcode");
           cbn in H422; discriminate);
      congruence.
  - intros W cep HV run. subst run.
    change (ServicoA.isValidCep cep) with (ServicoB.isValidCep cep) in HV.
    pose proof (slice_from_weather cep) as HS.
    SearchCep_paths W cep;
      match goal with
      | H : logs W (ServicoB.SearchCep cep) (Done (inr _)) _ |- _ =>
          rewrite (weatherHandler_lookup_failed W (get ("/weather/" ++ cep))
                     cep eq_refl HV _ _ H)
      | H : logs W (ServicoB.SearchCep cep) (Done (inl ?local)) _ |- _ =>
          GetWeather_paths W (ServicoB.Localidade local);
          match goal with
          | H' : logs W (ServicoB.GetWeather _) (Done (inr _)) _ |- _ =>
              rewrite (weatherHandler_weather_failed W
                         (get ("/weather/" ++ cep)) cep eq_refl HV
                         _ _ _ _ H H')
          | H' : logs W (ServicoB.GetWeather _) (Done (inl _)) _ |- _ =>
              rewrite (weatherHandler_answered W (get ("/weather/" ++ cep))
                         cep eq_refl HV _ _ _ _ H H')
          end
      end;
      cbn [fst snd rw]; (split; [reflexivity|]);
      try destruct (String.eqb _ "can not find zipcode");
      eexists; (split; [reflexivity|]); in_list.
Qed.

Lemma weatherHandler_422_only_for_invalid_witness :
  fst (ServicoB.weatherHandler (get ("/weather/" ++ "01001000"))
         world_sao_paulo_21 initial) = Done tt /\
  exists code,
    status_of (rw (snd (ServicoB.weatherHandler (get ("/weather/" ++ "01001000"))
                          world_sao_paulo_21 initial))) = Some code /\
    In code [200; 404; 500].
Proof.
  apply (proj2 weatherHandler_422_only_for_invalid world_sao_paulo_21
           "01001000").
  reflexivity.
Defined.
